(** * mcp-unity: the screenshot capture tool and the scene tools

    A shallow embedding of

    - [Editor/Tools/CaptureScreenshotTool.cs]: the closure that
      [ExecuteAsync] schedules on the editor's main thread and the
      private method [CaptureSceneViewScreenshot] (module [Capture]);
    - [Server~/src/tools/createSceneTool.ts], [deleteSceneTool.ts] and the
      file of the [load_scene] tool: the three [toolHandler] functions
      (module [SceneTools]).

    The C# code is a sequence of calls into the editor that read and write
    editor objects and may throw; it is embedded in a state-and-exception
    monad over an explicit [World], with [try]/[catch], [try]/[finally] and
    the early [return] of C# as combinators. *)

From Stdlib Require Import String Ascii List ZArith Bool Lia PeanoNat.
From Stdlib Require Import DecimalString.
Import ListNotations.

Local Open Scope list_scope.
Local Open Scope string_scope.

(** ** Strings *)

(** [String.ToLower] as the invariant culture and every culture that
    cases the ASCII letters alike do it, on ASCII text: the letters A to Z
    are lowered and every other character is kept.  Cultures with a casing
    of their own for ASCII letters (the dotless i of tr and az) and
    capitals outside ASCII are not covered. *)
Definition lower_ascii (c : ascii) : ascii :=
  let n := nat_of_ascii c in
  if (65 <=? n)%nat && (n <=? 90)%nat then ascii_of_nat (n + 32) else c.

Fixpoint ToLower (s : string) : string :=
  match s with
  | EmptyString => EmptyString
  | String c s' => String (lower_ascii c) (ToLower s')
  end.

(** The characters [Boolean.Parse] strips from both ends, among the ASCII
    ones: white space (tab to carriage return, space) and NUL. *)
Definition is_blank (c : ascii) : bool :=
  let n := nat_of_ascii c in
  (n =? 0)%nat || ((9 <=? n)%nat && (n <=? 13)%nat) || (n =? 32)%nat.

Fixpoint trim_start (s : string) : string :=
  match s with
  | EmptyString => EmptyString
  | String c s' => if is_blank c then trim_start s' else s
  end.

Fixpoint trim_end (s : string) : string :=
  match s with
  | EmptyString => EmptyString
  | String c s' =>
      match trim_end s' with
      | EmptyString => if is_blank c then EmptyString else String c EmptyString
      | rest => String c rest
      end
  end.

Definition trim (s : string) : string := trim_end (trim_start s).

(** Invariant decimal rendering of an [int], as string interpolation does. *)
Definition Int32_ToString (z : Z) : string :=
  NilZero.string_of_int (Z.to_int z).

(** [Path.Combine] on relative second components: the parts joined by the
    directory separator. *)
Definition Path_Combine (a b : string) : string := a ++ "/" ++ b.

(** ** Json.NET tokens *)

#[local] Unset Elimination Schemes.
Inductive JToken : Type :=
| JNull
| JBool (b : bool)
| JInteger (z : Z)
| JString (s : string)
| JArray (items : list JToken)
| JObject (props : list (string * JToken)).
#[local] Set Elimination Schemes.

(** The indexer [obj["key"]] of a [JObject]: [None] is the C# [null]. *)
Fixpoint property (key : string) (props : list (string * JToken))
  : option JToken :=
  match props with
  | [] => None
  | (k, v) :: rest => if k =? key then Some v else property key rest
  end.

Definition item (o : JToken) (key : string) : option JToken :=
  match o with
  | JObject props => property key props
  | _ => None
  end.

(** [obj["key"] = v]: replaces the property when present, appends it
    otherwise. *)
Fixpoint set_property (key : string) (v : JToken)
  (props : list (string * JToken)) : list (string * JToken) :=
  match props with
  | [] => [(key, v)]
  | (k, v0) :: rest =>
      if k =? key then (k, v) :: rest else (k, v0) :: set_property key v rest
  end.

Definition set_item (o : JToken) (key : string) (v : JToken) : JToken :=
  match o with
  | JObject props => JObject (set_property key v props)
  | _ => o
  end.

(** ** Exceptions and results *)

Record Exception : Type := mkException { Message : string }.

(** [JToken.ToObject<string>()]: [null] for a JSON null, the text of a
    primitive value, an exception for arrays and objects. *)
Definition ToObject_string (t : JToken) : Exception + option string :=
  match t with
  | JNull => inr None
  | JString s => inr (Some s)
  | JBool b => inr (Some (if b then "True" else "False"))
  | JInteger z => inr (Some (Int32_ToString z))
  | JArray _ => inl (mkException "Can not convert Array to String.")
  | JObject _ => inl (mkException "Can not convert Object to String.")
  end.

(** [JToken.ToObject<bool>()] on the tokens above: booleans and integers
    (non-zero is true) convert; a string converts as [Boolean.Parse] has
    it, when it is "true" or "false" in any letter case, with or without
    white space and NULs around it; everything else throws. *)
Definition ToObject_bool (t : JToken) : Exception + bool :=
  match t with
  | JBool b => inr b
  | JInteger z => inr (negb (z =? 0)%Z)
  | JString s =>
      if ToLower (trim s) =? "true" then inr true
      else if ToLower (trim s) =? "false" then inr false
      else inl (mkException "String was not recognized as a valid Boolean.")
  | JNull => inl (mkException "Can not convert Null to Boolean.")
  | JArray _ => inl (mkException "Can not convert Array to Boolean.")
  | JObject _ => inl (mkException "Can not convert Object to Boolean.")
  end.

(** Modelled from the spec: [McpUnitySocketHandler.CreateErrorResponse] is
    not part of the sources at hand.  A failure response is
    [success = false] together with the message and the error code it was
    given. *)
Definition CreateErrorResponse (message errorType : string) : JToken :=
  JObject [("success", JBool false);
           ("message", JString message);
           ("errorCode", JString errorType)].

Definition is_failure (r : JToken) : bool :=
  match item r "success" with
  | Some (JBool false) => true
  | _ => false
  end.

Definition is_success (r : JToken) : bool :=
  match item r "success" with
  | Some (JBool true) => true
  | _ => false
  end.

Definition error_code (r : JToken) : option string :=
  match item r "errorCode" with
  | Some (JString c) => Some c
  | _ => None
  end.

Definition error_message (r : JToken) : option string :=
  match item r "message" with
  | Some (JString m) => Some m
  | _ => None
  end.

(** ** The editor as a world *)

Module Capture.

(** Editor objects are references; their fields live in the world. *)
Definition SceneView := nat.
Definition Camera := nat.
Definition RenderTexture := nat.

(** What the code only reads. *)
Record Env : Type := mkEnv {
  lastActiveSceneView : option SceneView;  (* SceneView.lastActiveSceneView *)
  sceneViewWindow : option SceneView;      (* what EditorWindow.GetWindow<SceneView>() returns *)
  camera : SceneView -> option Camera;     (* sceneView.camera *)
  orthographic : Camera -> bool;
  position : Camera -> string;             (* camera.transform.position.ToString() *)
  eulerAngles : Camera -> string;          (* camera.transform.rotation.eulerAngles.ToString() *)
  dataPath : string;                       (* Application.dataPath *)
  now : string;                            (* DateTime.Now.ToString("yyyy-MM-dd_HH-mm-ss-fff") *)
  activeSceneName : string;                (* SceneManager.GetActiveScene().name *)
  currentTool : string;                    (* UnityEditor.Tools.current.ToString() *)
  activeGameObject : option string         (* Selection.activeGameObject, by name *)
}.

(** Every call into the editor, the file system or the completion source
    that has an effect, in the order the calls were made. *)
Inductive Event : Type :=
| EvCreateDirectory (path : string)
| EvSetDrawGizmos (v : SceneView) (b : bool)
| EvRepaint (v : SceneView)
| EvGetTemporary (t : RenderTexture) (width height : Z)
| EvSetTargetTexture (c : Camera) (t : option RenderTexture)
| EvSetActive (t : option RenderTexture)
| EvRender (c : Camera)
| EvNewTexture2D (width height : Z)
| EvReadPixels (width height : Z)
| EvApply
| EvEncodeToPNG
| EvWriteAllBytes (path : string)
| EvDestroyImmediate
| EvReleaseTemporary (t : RenderTexture)
| EvLog (msg : string)
| EvLogError (msg : string)
| EvTrySetResult (r : JToken).

(** What the code reads and writes.  [faults] is the oracle for the calls
    that may throw: each such call takes the head of the list, and throws
    with that message when it is [Some]; an empty list means no further
    call throws.  [log] is the history of effects. *)
Record World : Type := mkWorld {
  env : Env;
  drawGizmos : SceneView -> bool;                 (* sceneView.drawGizmos *)
  targetTexture : Camera -> option RenderTexture; (* camera.targetTexture *)
  active : option RenderTexture;                  (* RenderTexture.active *)
  temporaries : list RenderTexture;   (* handed out by GetTemporary, not released *)
  nextTemporary : RenderTexture;
  directories : list string;
  files : list (string * (Z * Z));    (* PNG files, by the size of the image *)
  tcs : option JToken;                (* the TaskCompletionSource<JObject> *)
  faults : list (option string);
  log : list Event
}.

Definition with_drawGizmos (f : SceneView -> bool) (w : World) : World :=
  mkWorld (env w) f (targetTexture w) (active w) (temporaries w)
    (nextTemporary w) (directories w) (files w) (tcs w) (faults w) (log w).

Definition with_targetTexture (f : Camera -> option RenderTexture)
  (w : World) : World :=
  mkWorld (env w) (drawGizmos w) f (active w) (temporaries w)
    (nextTemporary w) (directories w) (files w) (tcs w) (faults w) (log w).

Definition with_active (t : option RenderTexture) (w : World) : World :=
  mkWorld (env w) (drawGizmos w) (targetTexture w) t (temporaries w)
    (nextTemporary w) (directories w) (files w) (tcs w) (faults w) (log w).

Definition with_temporaries (l : list RenderTexture) (n : RenderTexture)
  (w : World) : World :=
  mkWorld (env w) (drawGizmos w) (targetTexture w) (active w) l
    n (directories w) (files w) (tcs w) (faults w) (log w).

Definition with_directories (l : list string) (w : World) : World :=
  mkWorld (env w) (drawGizmos w) (targetTexture w) (active w) (temporaries w)
    (nextTemporary w) l (files w) (tcs w) (faults w) (log w).

Definition with_files (l : list (string * (Z * Z))) (w : World) : World :=
  mkWorld (env w) (drawGizmos w) (targetTexture w) (active w) (temporaries w)
    (nextTemporary w) (directories w) l (tcs w) (faults w) (log w).

Definition with_tcs (r : option JToken) (w : World) : World :=
  mkWorld (env w) (drawGizmos w) (targetTexture w) (active w) (temporaries w)
    (nextTemporary w) (directories w) (files w) r (faults w) (log w).

Definition with_faults (l : list (option string)) (w : World) : World :=
  mkWorld (env w) (drawGizmos w) (targetTexture w) (active w) (temporaries w)
    (nextTemporary w) (directories w) (files w) (tcs w) l (log w).

Definition record (e : Event) (w : World) : World :=
  mkWorld (env w) (drawGizmos w) (targetTexture w) (active w) (temporaries w)
    (nextTemporary w) (directories w) (files w) (tcs w) (faults w)
    ((log w ++ [e])%list).

Definition update {A} (f : nat -> A) (k : nat) (a : A) : nat -> A :=
  fun k' => if (k' =? k)%nat then a else f k'.

Fixpoint remove_first (t : RenderTexture) (l : list RenderTexture)
  : list RenderTexture :=
  match l with
  | [] => []
  | x :: rest => if (x =? t)%nat then rest else x :: remove_first t rest
  end.

(** ** Statements: state, exceptions and early return *)

(** How a statement ends: it falls through with a value, it executes
    [return r] of the enclosing method, or it throws. *)
Inductive outcome (A : Type) : Type :=
| Normal (a : A)
| Returned (r : JToken)
| Thrown (e : Exception).
Arguments Normal {A} a.
Arguments Returned {A} r.
Arguments Thrown {A} e.

Definition M (A : Type) : Type := World -> outcome A * World.

Definition ret {A} (a : A) : M A := fun w => (Normal a, w).

Definition bind {A B} (m : M A) (k : A -> M B) : M B :=
  fun w =>
    match m w with
    | (Normal a, w') => k a w'
    | (Returned r, w') => (Returned r, w')
    | (Thrown e, w') => (Thrown e, w')
    end.

Definition return_ {A} (r : JToken) : M A := fun w => (Returned r, w).
Definition throw {A} (e : Exception) : M A := fun w => (Thrown e, w).

Definition gets {A} (f : World -> A) : M A := fun w => (Normal (f w), w).
Definition modify (f : World -> World) : M unit := fun w => (Normal tt, f w).

(** [try { body } catch (Exception e) { handler e }]. *)
Definition try_catch {A} (body : M A) (handler : Exception -> M A) : M A :=
  fun w =>
    match body w with
    | (Thrown e, w') => handler e w'
    | other => other
    end.

(** [try { body } finally { cleanup }]: the cleanup runs however the body
    ends; when the cleanup itself throws, that exception replaces the
    body's outcome. *)
Definition try_finally {A} (body : M A) (cleanup : M unit) : M A :=
  fun w =>
    match body w with
    | (o, w') =>
        match cleanup w' with
        | (Normal _, w'') => (o, w'')
        | (Returned r, w'') => (Returned r, w'')
        | (Thrown e, w'') => (Thrown e, w'')
        end
    end.

(** A method call: the callee's [return r] is the value of the call. *)
Definition call (body : M Empty_set) : M JToken :=
  fun w =>
    match body w with
    | (Normal a, _) => match a with end
    | (Returned r, w') => (Normal r, w')
    | (Thrown e, w') => (Thrown e, w')
    end.

(** A conversion that may throw. *)
Definition lift {A} (x : Exception + A) : M A :=
  match x with
  | inl e => throw e
  | inr a => ret a
  end.

(** A call that may throw: the oracle decides; a call that throws has no
    effect, one that does not has the effect [f]. *)
Definition fallible (f : World -> World) : M unit :=
  fun w =>
    match faults w with
    | Some msg :: rest => (Thrown (mkException msg), with_faults rest w)
    | None :: rest => (Normal tt, f (with_faults rest w))
    | [] => (Normal tt, f w)
    end.

Declare Scope stmt_scope.
Delimit Scope stmt_scope with stmt.
Notation "x <- m ;; k" := (bind m (fun x => k))
  (at level 100, m at next level, right associativity) : stmt_scope.
Notation "m ;; k" := (bind m (fun _ => k))
  (at level 100, right associativity) : stmt_scope.
Local Open Scope stmt_scope.

(** ** The calls the tool makes *)

(** Property writes, logging, [ReleaseTemporary] and the reads do not
    throw; the other calls into the editor and the file system may.  The
    one call outside of the method's [try], [EditorWindow.GetWindow], is
    taken with the reads: it yields the Scene View window or [null], it
    does not throw, and a window it may open is no effect of the model. *)

Definition set_drawGizmos (v : SceneView) (b : bool) : M unit :=
  modify (fun w =>
    record (EvSetDrawGizmos v b) (with_drawGizmos (update (drawGizmos w) v b) w)).

Definition Repaint (v : SceneView) : M unit :=
  fallible (record (EvRepaint v)).

Definition Directory_Exists (dir : string) : M bool :=
  gets (fun w => existsb (String.eqb dir) (directories w)).

Definition Directory_CreateDirectory (dir : string) : M unit :=
  fallible (fun w =>
    record (EvCreateDirectory dir) (with_directories (dir :: directories w) w)).

(** [RenderTexture.GetTemporary(width, height, 24, ARGB32)]. *)
Definition RenderTexture_GetTemporary (width height : Z) : M RenderTexture :=
  t <- gets nextTemporary ;;
  fallible (fun w =>
    record (EvGetTemporary t width height)
      (with_temporaries (t :: temporaries w) (S t) w)) ;;
  ret t.

Definition RenderTexture_ReleaseTemporary (t : RenderTexture) : M unit :=
  modify (fun w =>
    record (EvReleaseTemporary t)
      (with_temporaries (remove_first t (temporaries w)) (nextTemporary w) w)).

Definition set_targetTexture (c : Camera) (t : option RenderTexture) : M unit :=
  modify (fun w =>
    record (EvSetTargetTexture c t)
      (with_targetTexture (update (targetTexture w) c t) w)).

Definition set_active (t : option RenderTexture) : M unit :=
  modify (fun w => record (EvSetActive t) (with_active t w)).

Definition Camera_Render (c : Camera) : M unit :=
  fallible (record (EvRender c)).

(** A [Texture2D] and the PNG made from it are known by their size. *)
Definition new_Texture2D (width height : Z) : M (Z * Z) :=
  fallible (record (EvNewTexture2D width height)) ;;
  ret (width, height).

Definition ReadPixels (texture2D : Z * Z) (width height : Z) : M unit :=
  fallible (record (EvReadPixels width height)).

Definition Apply (texture2D : Z * Z) : M unit :=
  fallible (record EvApply).

Definition EncodeToPNG (texture2D : Z * Z) : M (Z * Z) :=
  fallible (record EvEncodeToPNG) ;;
  ret texture2D.

Definition File_WriteAllBytes (path : string) (data : Z * Z) : M unit :=
  fallible (fun w =>
    record (EvWriteAllBytes path) (with_files ((path, data) :: files w) w)).

Definition DestroyImmediate (texture2D : Z * Z) : M unit :=
  fallible (record EvDestroyImmediate).

Definition Debug_Log (msg : string) : M unit := modify (record (EvLog msg)).
Definition Debug_LogError (msg : string) : M unit :=
  modify (record (EvLogError msg)).

(** [tcs.TrySetResult(r)]: completes the source when it is not completed
    yet, and says whether it did. *)
Definition TrySetResult (r : JToken) : M bool :=
  fun w =>
    match tcs w with
    | None => (Normal true, record (EvTrySetResult r) (with_tcs (Some r) w))
    | Some _ => (Normal false, record (EvTrySetResult r) w)
    end.

(** ** [CaptureSceneViewScreenshot] *)

Definition CaptureSceneViewScreenshot (mode : string)
  (withGizmos withLabels : bool) (width height : Z) : M JToken :=
  call (
    sceneView <- gets (fun w => lastActiveSceneView (env w)) ;;
    sceneView <- match sceneView with
                 | None => gets (fun w => sceneViewWindow (env w))
                 | Some _ => ret sceneView
                 end ;;
    match sceneView with
    | None =>
        return_ (CreateErrorResponse
                   "No Scene View available for screenshot capture"
                   "no_scene_view")
    | Some sceneView =>
        try_catch (
          (* Ensure directory exists *)
          dataPath <- gets (fun w => dataPath (env w)) ;;
          let screenshotDir :=
            Path_Combine (Path_Combine (Path_Combine dataPath "..") "Temp")
              "MCPScreenshots" in
          dirExists <- Directory_Exists screenshotDir ;;
          (if negb dirExists then Directory_CreateDirectory screenshotDir
           else ret tt) ;;
          (* Generate filename *)
          timestamp <- gets (fun w => now (env w)) ;;
          let filename :=
            "MCP_SceneView_" ++ mode ++ "_" ++ timestamp ++ ".png" in
          let filePath := Path_Combine screenshotDir filename in
          camera <- gets (fun w => camera (env w) sceneView) ;;
          (* Apply mode settings *)
          currentGizmos <- gets (fun w => drawGizmos w sceneView) ;;
          try_finally (
            (if mode =? "basic" then set_drawGizmos sceneView false
             else if (mode =? "labels") || (mode =? "debug")
                  then set_drawGizmos sceneView true
             else if mode =? "custom" then set_drawGizmos sceneView withGizmos
             else ret tt) ;;
            Repaint sceneView ;;
            match camera with
            | None =>
                return_ (CreateErrorResponse "Scene View camera not available"
                           "no_camera")
            | Some camera =>
                renderTexture <- RenderTexture_GetTemporary width height ;;
                previousTarget <- gets (fun w => targetTexture w camera) ;;
                previousActive <- gets active ;;
                try_finally (
                  set_targetTexture camera (Some renderTexture) ;;
                  set_active (Some renderTexture) ;;
                  Camera_Render camera ;;
                  texture2D <- new_Texture2D width height ;;
                  ReadPixels texture2D width height ;;
                  Apply texture2D ;;
                  pngData <- EncodeToPNG texture2D ;;
                  File_WriteAllBytes filePath pngData ;;
                  DestroyImmediate texture2D ;;
                  Debug_Log ("[MCP Screenshot] Successfully captured " ++ mode
                             ++ " screenshot: " ++ filePath)
                ) (
                  set_targetTexture camera previousTarget ;;
                  set_active previousActive ;;
                  RenderTexture_ReleaseTemporary renderTexture
                )
            end
          ) (
            (* Restore original gizmo state *)
            set_drawGizmos sceneView currentGizmos ;;
            Repaint sceneView
          ) ;;
          (* Build response with basic metadata *)
          drawGizmosNow <- gets (fun w => drawGizmos w sceneView) ;;
          let response := JObject [
            ("success", JBool true);
            ("type", JString "screenshot");
            ("filePath", JString filePath);
            ("timestamp", JString timestamp);
            ("resolution",
              JString (Int32_ToString width ++ "x" ++ Int32_ToString height));
            ("captureMethod", JString "Scene View");
            ("captureType", JString ("MCP " ++ mode ++ " capture"));
            ("withGizmos", JBool drawGizmosNow);
            ("withLabels", JBool withLabels);
            ("mode", JString mode) ] in
          (* Add basic scene context *)
          sceneName <- gets (fun w => activeSceneName (env w)) ;;
          activeTool <- gets (fun w => currentTool (env w)) ;;
          isOrthographic <-
            match camera with
            | None => throw (mkException "Object reference not set to an instance of an object.")
            | Some camera => gets (fun w => orthographic (env w) camera)
            end ;;
          let context := JObject [
            ("sceneName", JString sceneName);
            ("activeTool", JString activeTool);
            ("cameraProjection",
              JString (if isOrthographic then "Orthographic" else "Perspective")) ] in
          context <-
            match camera with
            | None => ret context
            | Some camera =>
                cameraPosition <- gets (fun w => position (env w) camera) ;;
                cameraRotation <- gets (fun w => eulerAngles (env w) camera) ;;
                ret (set_item (set_item context "cameraPosition" (JString cameraPosition))
                       "cameraRotation" (JString cameraRotation))
            end ;;
          selected <- gets (fun w => activeGameObject (env w)) ;;
          let context :=
            match selected with
            | None => context
            | Some name => set_item context "selectedObject" (JString name)
            end in
          let response := set_item response "context" context in
          let response :=
            set_item response "message"
              (JString ("Screenshot captured successfully: " ++ filePath)) in
          return_ response
        ) (fun e =>
          return_ (CreateErrorResponse
                     ("Failed to capture screenshot: " ++ Message e)
                     "capture_failed"))
    end).

(** ** The closure scheduled by [ExecuteAsync] *)

(** [parameters["key"]?.ToObject<string>()?.ToLower() ?? fallback]. *)
Definition string_parameter (parameters : list (string * JToken))
  (key fallback : string) : Exception + string :=
  match property key parameters with
  | None => inr fallback
  | Some t =>
      match ToObject_string t with
      | inl e => inl e
      | inr None => inr fallback
      | inr (Some s) => inr (ToLower s)
      end
  end.

(** [parameters["key"]?.ToObject<bool>() ?? fallback]. *)
Definition bool_parameter (parameters : list (string * JToken))
  (key : string) (fallback : bool) : Exception + bool :=
  match property key parameters with
  | None => inr fallback
  | Some t => ToObject_bool t
  end.

(** The [switch (resolution)] of the closure. *)
Definition resolution_switch (resolution : string) : Z * Z :=
  if resolution =? "1440p" then (2560, 1440)%Z
  else if resolution =? "4k" then (3840, 2160)%Z
  else (1920, 1080)%Z.

(** The body of the delegate added to [EditorApplication.delayCall]; the
    completion source [tcs] is the one of the world. *)
Definition ExecuteAsync (parameters : list (string * JToken)) : M unit :=
  try_catch (
    (* Extract parameters with defaults *)
    mode <- lift (string_parameter parameters "mode" "basic") ;;
    withGizmos <- lift (bool_parameter parameters "withGizmos" true) ;;
    withLabels <- lift (bool_parameter parameters "withLabels" false) ;;
    resolution <- lift (string_parameter parameters "resolution" "1080p") ;;
    (* Get resolution dimensions *)
    let '(width, height) := resolution_switch resolution in
    (* Capture the screenshot *)
    result <- CaptureSceneViewScreenshot mode withGizmos withLabels width height ;;
    TrySetResult result ;;
    ret tt
  ) (fun e =>
    Debug_LogError ("[MCP Screenshot] Error capturing screenshot: " ++ Message e) ;;
    let errorResponse :=
      CreateErrorResponse
        ("Exception during screenshot capture: " ++ Message e)
        "capture_exception" in
    TrySetResult errorResponse ;;
    ret tt).

(** ** Vocabulary of the statements *)

(** The Scene View the method works on: the last active one, else the one
    [GetWindow] hands out. *)
Definition resolve_view (e : Env) : option SceneView :=
  match lastActiveSceneView e with
  | Some v => Some v
  | None => sceneViewWindow e
  end.

(** The flag the [switch (mode)] assigns to [drawGizmos], if any. *)
Definition mode_flag (mode : string) (withGizmos : bool) : option bool :=
  if mode =? "basic" then Some false
  else if (mode =? "labels") || (mode =? "debug") then Some true
  else if mode =? "custom" then Some withGizmos
  else None.

Definition screenshot_path (e : Env) (mode : string) : string :=
  Path_Combine
    (Path_Combine (Path_Combine (Path_Combine (dataPath e) "..") "Temp")
       "MCPScreenshots")
    ("MCP_SceneView_" ++ mode ++ "_" ++ now e ++ ".png").

(** The response of a capture that went through, as a function of the
    arguments, of what the editor shows and of the gizmo flag that is
    reported. *)
Definition success_response (e : Env) (mode : string) (withLabels : bool)
  (width height : Z) (c : Camera) (gizmos : bool) : JToken :=
  JObject [
    ("success", JBool true);
    ("type", JString "screenshot");
    ("filePath", JString (screenshot_path e mode));
    ("timestamp", JString (now e));
    ("resolution",
      JString (Int32_ToString width ++ "x" ++ Int32_ToString height));
    ("captureMethod", JString "Scene View");
    ("captureType", JString ("MCP " ++ mode ++ " capture"));
    ("withGizmos", JBool gizmos);
    ("withLabels", JBool withLabels);
    ("mode", JString mode);
    ("context",
      JObject
        ([("sceneName", JString (activeSceneName e));
          ("activeTool", JString (currentTool e));
          ("cameraProjection",
            JString (if orthographic e c then "Orthographic" else "Perspective"));
          ("cameraPosition", JString (position e c));
          ("cameraRotation", JString (eulerAngles e c))]
         ++ match activeGameObject e with
            | Some name => [("selectedObject", JString name)]
            | None => []
            end)%list);
    ("message",
      JString ("Screenshot captured successfully: " ++ screenshot_path e mode))
  ].

Definition no_scene_view_response : JToken :=
  CreateErrorResponse "No Scene View available for screenshot capture"
    "no_scene_view".

Definition no_camera_response : JToken :=
  CreateErrorResponse "Scene View camera not available" "no_camera".

Definition capture_failed_response (msg : string) : JToken :=
  CreateErrorResponse ("Failed to capture screenshot: " ++ msg) "capture_failed".

Definition capture_exception_response (msg : string) : JToken :=
  CreateErrorResponse ("Exception during screenshot capture: " ++ msg)
    "capture_exception".

(** The steps of Rendering and Persisting, as events. *)
Definition rendering_event (e : Event) : bool :=
  match e with
  | EvGetTemporary _ _ _ | EvSetTargetTexture _ _ | EvSetActive _
  | EvRender _ | EvNewTexture2D _ _ | EvReadPixels _ _ | EvApply
  | EvEncodeToPNG | EvWriteAllBytes _ | EvDestroyImmediate
  | EvReleaseTemporary _ | EvLog _ => true
  | _ => false
  end.

(** The events a run of [CaptureSceneViewScreenshot] may add to the log,
    for the view [v] whose flag was [g0] at the start: the directory, the
    flag set to the mode's value or back to [g0], repaints of [v], and
    rendering events when there is a camera. *)
Definition capture_event (v : SceneView) (g0 : bool) (flag : option bool)
  (cam : option Camera) (e : Event) : Prop :=
  match e with
  | EvCreateDirectory _ => True
  | EvSetDrawGizmos v' b => v' = v /\ (b = g0 \/ flag = Some b)
  | EvRepaint v' => v' = v
  | EvLogError _ | EvTrySetResult _ => False
  | _ => cam <> None
  end.

(** The results handed to [TrySetResult], oldest first. *)
Fixpoint results_set (l : list Event) : list JToken :=
  match l with
  | [] => []
  | EvTrySetResult r :: rest => r :: results_set rest
  | _ :: rest => results_set rest
  end.

End Capture.

(** * The scene tools of the Node server *)

Module SceneTools.

(** JavaScript values, as far as the handlers look at them (numbers are
    integers here). *)
#[local] Unset Elimination Schemes.
Inductive JsValue : Type :=
| JsUndefined
| JsNull
| JsBoolean (b : bool)
| JsNumber (z : Z)
| JsString (s : string)
| JsArray (items : list JsValue)
| JsObject (props : list (string * JsValue)).
#[local] Set Elimination Schemes.

(** [ToBoolean]: what [!v] and [v || w] test. *)
Definition truthy (v : JsValue) : bool :=
  match v with
  | JsUndefined | JsNull => false
  | JsBoolean b => b
  | JsNumber z => negb (z =? 0)%Z
  | JsString s => negb (s =? "")
  | JsArray _ | JsObject _ => true
  end.

(** [a || b]. *)
Definition js_or (a b : JsValue) : JsValue := if truthy a then a else b.

(** [obj.key] on an object: [undefined] when the property is absent. *)
Fixpoint get (props : list (string * JsValue)) (key : string) : JsValue :=
  match props with
  | [] => JsUndefined
  | (k, v) :: rest => if k =? key then v else get rest key
  end.

(** [v.key] on a value that is neither [null] nor [undefined], for the
    keys the handlers read (none of them is a property of a string or of
    an array). *)
Definition member (o : JsValue) (key : string) : JsValue :=
  match o with
  | JsObject props => get props key
  | _ => JsUndefined
  end.

(** Reading a property of [null] or of [undefined] throws a [TypeError]. *)
Definition nullish (v : JsValue) : bool :=
  match v with
  | JsUndefined | JsNull => true
  | _ => false
  end.

(** Modelled from the spec: [utils/errors.ts] is not part of the sources at
    hand.  The error types are the ones the handlers name and the two
    failures of a request (no response before the deadline, connection
    lost). *)
Inductive ErrorType : Type := VALIDATION | TOOL_EXECUTION | TIMEOUT | CONNECTION.

Record McpUnityError : Type := mkError {
  type : ErrorType;
  message : JsValue
}.

(** How an [async] function settles: it resolves, it is rejected with a
    [McpUnityError], or it is rejected with the [TypeError] of a property
    read on [null] or [undefined]. *)
Inductive Settled (A : Type) : Type :=
| Resolved (a : A)
| Rejected (e : McpUnityError)
| RejectedTypeError.
Arguments Resolved {A} a.
Arguments Rejected {A} e.
Arguments RejectedTypeError {A}.

Record Request : Type := mkRequest {
  method : string;
  params : list (string * JsValue)
}.

(** What the editor's side does with a request: it answers, it stays
    silent until the deadline, or the connection is lost. *)
Inductive Reply : Type :=
| Response (response : JsValue)
| NoResponse
| ConnectionLost.

(** The bridge to the editor: the requests handed to [sendRequest] so far,
    oldest first, and what the next requests will meet (nothing left: no
    response). *)
Record McpUnity : Type := mkMcpUnity {
  requests : list Request;
  replies : list Reply
}.

(** Modelled from the spec: [unity/mcpUnity.ts] is not part of the sources at
    hand.  [sendRequest] takes the request and settles with the response to
    it, or fails with a timeout when none arrives before the deadline and
    with a connection error when the connection is lost. *)
Definition sendRequest (mcpUnity : McpUnity) (request : Request)
  : Settled JsValue * McpUnity :=
  let sent := (requests mcpUnity ++ [request])%list in
  match replies mcpUnity with
  | [] =>
      (Rejected (mkError TIMEOUT (JsString "Request timed out")),
       mkMcpUnity sent [])
  | Response response :: rest => (Resolved response, mkMcpUnity sent rest)
  | NoResponse :: rest =>
      (Rejected (mkError TIMEOUT (JsString "Request timed out")),
       mkMcpUnity sent rest)
  | ConnectionLost :: rest =>
      (Rejected (mkError CONNECTION (JsString "Connection lost")),
       mkMcpUnity sent rest)
  end.

Module createSceneTool.

Definition toolName : string := "create_scene".

Definition toolHandler (mcpUnity : McpUnity) (params : list (string * JsValue))
  : Settled JsValue * McpUnity :=
  if negb (truthy (get params "sceneName")) then
    (Rejected (mkError VALIDATION (JsString "'sceneName' must be provided")),
     mcpUnity)
  else
    match sendRequest mcpUnity (mkRequest toolName params) with
    | (Resolved response, mcpUnity') =>
        if nullish response then (RejectedTypeError, mcpUnity')
        else if negb (truthy (member response "success")) then
          (Rejected
             (mkError TOOL_EXECUTION
                (js_or (member response "message")
                   (JsString "Failed to create scene"))),
           mcpUnity')
        else
          (Resolved
             (JsObject [
                ("content",
                  JsArray [JsObject [
                    ("type", member response "type");
                    ("text", js_or (member response "message")
                               (JsString "Successfully created scene"))]]);
                ("data",
                  JsObject [("scenePath", member response "scenePath")])]),
           mcpUnity')
    | (rejected, mcpUnity') => (rejected, mcpUnity')
    end.

End createSceneTool.

Module loadSceneTool.

Definition toolName : string := "load_scene".

Definition toolHandler (mcpUnity : McpUnity) (params : list (string * JsValue))
  : Settled JsValue * McpUnity :=
  if negb (truthy (get params "scenePath"))
     && negb (truthy (get params "sceneName")) then
    (Rejected
       (mkError VALIDATION
          (JsString "Either 'scenePath' or 'sceneName' must be provided")),
     mcpUnity)
  else
    match sendRequest mcpUnity (mkRequest toolName params) with
    | (Resolved response, mcpUnity') =>
        if nullish response then (RejectedTypeError, mcpUnity')
        else if negb (truthy (member response "success")) then
          (Rejected
             (mkError TOOL_EXECUTION
                (js_or (member response "message")
                   (JsString "Failed to load scene"))),
           mcpUnity')
        else
          (Resolved
             (JsObject [
                ("content",
                  JsArray [JsObject [
                    ("type", member response "type");
                    ("text", js_or (member response "message")
                               (JsString "Successfully loaded scene"))]]);
                ("data",
                  JsObject [("scenePath", member response "scenePath");
                            ("additive", member response "additive")])]),
           mcpUnity')
    | (rejected, mcpUnity') => (rejected, mcpUnity')
    end.

End loadSceneTool.

Module deleteSceneTool.

Definition toolName : string := "delete_scene".

Definition toolHandler (mcpUnity : McpUnity) (params : list (string * JsValue))
  : Settled JsValue * McpUnity :=
  if negb (truthy (get params "scenePath"))
     && negb (truthy (get params "sceneName")) then
    (Rejected
       (mkError VALIDATION
          (JsString "Either 'scenePath' or 'sceneName' must be provided")),
     mcpUnity)
  else
    match sendRequest mcpUnity (mkRequest toolName params) with
    | (Resolved response, mcpUnity') =>
        if nullish response then (RejectedTypeError, mcpUnity')
        else if negb (truthy (member response "success")) then
          (Rejected
             (mkError TOOL_EXECUTION
                (js_or (member response "message")
                   (JsString "Failed to delete scene"))),
           mcpUnity')
        else
          (Resolved
             (JsObject [
                ("content",
                  JsArray [JsObject [
                    ("type", member response "type");
                    ("text", js_or (member response "message")
                               (JsString "Successfully deleted scene"))]]);
                ("data",
                  JsObject [("scenePath", member response "scenePath")])]),
           mcpUnity')
    | (rejected, mcpUnity') => (rejected, mcpUnity')
    end.

End deleteSceneTool.

(** ** Vocabulary of the statements *)

Inductive Tool : Type := create_scene | load_scene | delete_scene.

Definition handler (t : Tool)
  : McpUnity -> list (string * JsValue) -> Settled JsValue * McpUnity :=
  match t with
  | create_scene => createSceneTool.toolHandler
  | load_scene => loadSceneTool.toolHandler
  | delete_scene => deleteSceneTool.toolHandler
  end.

Definition name (t : Tool) : string :=
  match t with
  | create_scene => createSceneTool.toolName
  | load_scene => loadSceneTool.toolName
  | delete_scene => deleteSceneTool.toolName
  end.

(** A parameter is provided when the call carries a value for it that
    JavaScript counts as true: a non-empty string. *)
Definition provided (params : list (string * JsValue)) (key : string) : bool :=
  truthy (get params key).

Definition is_validation_error (r : Settled JsValue) : bool :=
  match r with
  | Rejected (mkError VALIDATION _) => true
  | _ => false
  end.

(** What a call must provide to get past the check of each handler. *)
Definition required (t : Tool) (params : list (string * JsValue)) : bool :=
  match t with
  | create_scene => provided params "sceneName"
  | load_scene | delete_scene =>
      provided params "scenePath" || provided params "sceneName"
  end.

(** A series of calls, each handled from the bridge the one before left. *)
Fixpoint serve (calls : list (Tool * list (string * JsValue)))
  (mcpUnity : McpUnity) : McpUnity :=
  match calls with
  | [] => mcpUnity
  | (t, params) :: rest => serve rest (snd (handler t mcpUnity params))
  end.

(** The text of the one entry of [content] of a result. *)
Definition content_text (result : JsValue) : JsValue :=
  match member result "content" with
  | JsArray [entry] => member entry "text"
  | _ => JsUndefined
  end.

End SceneTools.

(** * The capture tool of the Node server *)

Module captureScreenshotTool.
Import SceneTools.

Definition toolName : string := "capture_screenshot".

(** [const { key = fallback } = params]: the default stands in for a
    property that is [undefined], and for nothing else. *)
Definition destructured (params : list (string * JsValue)) (key : string)
  (fallback : JsValue) : JsValue :=
  match get params key with
  | JsUndefined => fallback
  | v => v
  end.

(** Lines 74 to 101 of [toolHandler]: the parameters with their defaults,
    the request and the check of the answer.  What is resolved here is the
    response the rest of the function turns into text; that formatting
    (lines 103 to 199) is not part of this definition. *)
Definition toolHandler_request (mcpUnity : McpUnity)
  (params : list (string * JsValue)) : Settled JsValue * McpUnity :=
  let mode := destructured params "mode" (JsString "basic") in
  let withGizmos := destructured params "withGizmos" (JsBoolean true) in
  let withLabels := destructured params "withLabels" (JsBoolean false) in
  let resolution := destructured params "resolution" (JsString "1080p") in
  match sendRequest mcpUnity
          (mkRequest "capture_screenshot"
             [("mode", mode); ("withGizmos", withGizmos);
              ("withLabels", withLabels); ("resolution", resolution)]) with
  | (Resolved response, mcpUnity') =>
      if nullish response then (RejectedTypeError, mcpUnity')
      else if negb (truthy (member response "success")) then
        (Rejected
           (mkError TOOL_EXECUTION
              (js_or (member response "message")
                 (JsString "Failed to capture screenshot from Unity"))),
         mcpUnity')
      else (Resolved response, mcpUnity')
  | (rejected, mcpUnity') => (rejected, mcpUnity')
  end.

End captureScreenshotTool.

(** * Reasoning about the capture tool *)

Import Capture.
Local Open Scope stmt_scope.

(** [wp m Q w]: running [m] from [w] ends in an outcome and a world that
    satisfy [Q]. *)
Definition wp {A} (m : M A) (Q : outcome A -> World -> Prop) (w : World)
  : Prop :=
  Q (fst (m w)) (snd (m w)).

Definition after_bind {A B} (k : A -> M B) (Q : outcome B -> World -> Prop)
  : outcome A -> World -> Prop :=
  fun o w =>
    match o with
    | Normal a => wp (k a) Q w
    | Returned r => Q (Returned r) w
    | Thrown e => Q (Thrown e) w
    end.

Definition after_body {A} (handler : Exception -> M A)
  (Q : outcome A -> World -> Prop) : outcome A -> World -> Prop :=
  fun o w =>
    match o with
    | Thrown e => wp (handler e) Q w
    | _ => Q o w
    end.

Definition after_cleanup {A} (o : outcome A) (Q : outcome A -> World -> Prop)
  : outcome unit -> World -> Prop :=
  fun o2 w =>
    match o2 with
    | Normal _ => Q o w
    | Returned r => Q (Returned r) w
    | Thrown e => Q (Thrown e) w
    end.

Definition after_call (Q : outcome JToken -> World -> Prop)
  : outcome Empty_set -> World -> Prop :=
  fun o w =>
    match o with
    | Normal a => match a with end
    | Returned r => Q (Normal r) w
    | Thrown e => Q (Thrown e) w
    end.

(** The world after the [switch (mode)], whatever the mode. *)
Definition configured (flag : option bool) (v : SceneView) (w : World) : World :=
  mkWorld (env w)
    (match flag with
     | Some b => update (drawGizmos w) v b
     | None => drawGizmos w
     end)
    (targetTexture w) (active w) (temporaries w) (nextTemporary w)
    (directories w) (files w) (tcs w) (faults w)
    (log w ++ match flag with
              | Some b => [EvSetDrawGizmos v b]
              | None => []
              end)%list.

(** The world after the screenshot directory was looked up and, when
    absent, created. *)
Definition ensured (created : bool) (dir : string) (w : World) : World :=
  mkWorld (env w) (drawGizmos w) (targetTexture w) (active w) (temporaries w)
    (nextTemporary w)
    (if created then dir :: directories w else directories w)
    (files w) (tcs w) (faults w)
    (log w ++ if created then [EvCreateDirectory dir] else [])%list.

(** Two statements that differ in the values they compute only: they end
    the same way in the same world. *)
Definition same_kind {A} (o1 o2 : outcome A) : Prop :=
  match o1, o2 with
  | Normal _, Normal _ => True
  | Returned _, Returned _ => True
  | Thrown e1, Thrown e2 => e1 = e2
  | _, _ => False
  end.

Definition sim {A} (m1 m2 : M A) : Prop :=
  forall w, snd (m1 w) = snd (m2 w) /\ same_kind (fst (m1 w)) (fst (m2 w)).

(** What a run of [CaptureSceneViewScreenshot] does, on every path: the
    editor state it leaves, the events it adds, and its result. *)
Definition capture_post (mode : string) (g l : bool) (wd ht : Z) (w : World)
  (o : outcome JToken) (w' : World) : Prop :=
  env w' = env w /\
  (forall x, drawGizmos w' x = drawGizmos w x) /\
  (forall c, targetTexture w' c = targetTexture w c) /\
  active w' = active w /\
  temporaries w' = temporaries w /\
  tcs w' = tcs w /\
  match resolve_view (env w) with
  | None => o = Normal no_scene_view_response /\ w' = w
  | Some v =>
      (exists d, log w' = (log w ++ d)%list /\
         Forall (capture_event v (drawGizmos w v) (mode_flag mode g)
                   (camera (env w) v)) d) /\
      match camera (env w) v with
      | None =>
          files w' = files w /\
          (o = Normal no_camera_response \/
           exists msg, o = Normal (capture_failed_response msg))
      | Some c =>
          (exists msg, o = Normal (capture_failed_response msg)) \/
          (o = Normal (success_response (env w) mode l wd ht c (drawGizmos w v)) /\
           files w' = (screenshot_path (env w) mode, (wd, ht)) :: files w)
      end
  end.

(** What a run of the closure does, on every path. *)
Definition closure_post (parameters : list (string * JToken)) (w : World)
  (o : outcome unit) (w' : World) : Prop :=
  o = Normal tt /\
  env w' = env w /\
  (forall x, drawGizmos w' x = drawGizmos w x) /\
  (forall c, targetTexture w' c = targetTexture w c) /\
  active w' = active w /\
  temporaries w' = temporaries w /\
  exists r,
    results_set (log w') = (results_set (log w) ++ [r])%list /\
    tcs w' = match tcs w with None => Some r | Some r0 => Some r0 end /\
    ((exists e,
        r = capture_exception_response (Message e) /\
        (string_parameter parameters "mode" "basic" = inl e \/
         bool_parameter parameters "withGizmos" true = inl e \/
         bool_parameter parameters "withLabels" false = inl e \/
         string_parameter parameters "resolution" "1080p" = inl e)) \/
     (exists mode g l res w1,
        string_parameter parameters "mode" "basic" = inr mode /\
        bool_parameter parameters "withGizmos" true = inr g /\
        bool_parameter parameters "withLabels" false = inr l /\
        string_parameter parameters "resolution" "1080p" = inr res /\
        CaptureSceneViewScreenshot mode g l
          (fst (resolution_switch res)) (snd (resolution_switch res)) w
        = (Normal r, w1) /\
        log w' = (log w1 ++ [EvTrySetResult r])%list)).


(** The value the completion source holds after a run of the closure. *)
Definition delivered (parameters : list (string * JToken)) (w : World)
  : option JToken :=
  tcs (snd (ExecuteAsync parameters w)).

(** ** Sample editors *)

Definition sample_env (view : option SceneView) (cam : option Camera) : Env :=
  mkEnv view None (fun _ => cam) (fun _ => false)
    (fun _ => "(0.0, 1.0, -10.0)") (fun _ => "(0.0, 0.0, 0.0)")
    "/proj/Assets" "2025-01-02_03-04-05-678" "SampleScene" "Move"
    (Some "Cube").

(** An editor whose views all draw gizmos, with no file, no temporary and
    a completion source that is still open. *)
Definition sample_world (view : option SceneView) (cam : option Camera)
  (faults : list (option string)) : World :=
  mkWorld (sample_env view cam) (fun _ => true) (fun _ => None) None [] 0%nat
    [] [] None faults [].

Definition world0 : World := sample_world (Some 0%nat) (Some 7%nat) [].

(** ** Files, directories and the order of effects *)

Definition screenshot_dir (e : Env) : string :=
  Path_Combine (Path_Combine (Path_Combine (dataPath e) "..") "Temp")
    "MCPScreenshots".

(** What a run of [CaptureSceneViewScreenshot] does to the file system, on
    every path. *)
Definition storage_post (mode : string) (wd ht : Z) (w : World)
  (o : outcome JToken) (w' : World) : Prop :=
  let dir := screenshot_dir (env w) in
  (files w' = files w \/
   (files w' = (screenshot_path (env w) mode, (wd, ht)) :: files w /\
    existsb (String.eqb dir) (directories w') = true)) /\
  (directories w' = directories w \/
   (existsb (String.eqb dir) (directories w) = false /\
    directories w' = dir :: directories w)) /\
  (forall r, o = Normal r -> is_success r = true ->
     existsb (String.eqb dir) (directories w') = true).

(** The effects of a run that ends with the no-camera failure, in order,
    for the view [v]: Configuring, then Restoring. *)
Definition no_camera_trace (mode : string) (g : bool) (w : World)
  (v : SceneView) : list Event :=
  let dir := screenshot_dir (env w) in
  ((if existsb (String.eqb dir) (directories w) then []
    else [EvCreateDirectory dir])
   ++ match mode_flag mode g with
      | Some b => [EvSetDrawGizmos v b]
      | None => []
      end
   ++ [EvRepaint v;
       EvSetDrawGizmos v (drawGizmos w v);
       EvRepaint v])%list.

(** The effects of a capture on which nothing throws, in order, for the
    view [v] with the camera [c]. *)
Definition capture_trace (mode : string) (g : bool) (wd ht : Z) (w : World)
  (v : SceneView) (c : Camera) : list Event :=
  let dir := screenshot_dir (env w) in
  let path := screenshot_path (env w) mode in
  let t := nextTemporary w in
  ((if existsb (String.eqb dir) (directories w) then []
    else [EvCreateDirectory dir])
   ++ match mode_flag mode g with
      | Some b => [EvSetDrawGizmos v b]
      | None => []
      end
   ++ [EvRepaint v;
       EvGetTemporary t wd ht;
       EvSetTargetTexture c (Some t);
       EvSetActive (Some t);
       EvRender c;
       EvNewTexture2D wd ht;
       EvReadPixels wd ht;
       EvApply;
       EvEncodeToPNG;
       EvWriteAllBytes path;
       EvDestroyImmediate;
       EvLog ("[MCP Screenshot] Successfully captured " ++ mode
              ++ " screenshot: " ++ path);
       EvSetTargetTexture c (targetTexture w c);
       EvSetActive (active w);
       EvReleaseTemporary t;
       EvSetDrawGizmos v (drawGizmos w v);
       EvRepaint v])%list.

(** ** Rules *)

Section Rules.
Context {A B : Type}.

Lemma wp_bind (m : M A) (k : A -> M B) Q w :
  wp m (after_bind k Q) w -> wp (bind m k) Q w.
Proof.
  unfold wp, bind, after_bind. destruct (m w) as [[a|r|e] w']; cbn; auto.
Qed.

Lemma wp_ret (a : A) Q w : Q (Normal a) w -> wp (ret a) Q w.
Proof. exact (fun H => H). Qed.

Lemma wp_return r (Q : outcome A -> World -> Prop) w :
  Q (Returned r) w -> wp (return_ r) Q w.
Proof. exact (fun H => H). Qed.

Lemma wp_throw e (Q : outcome A -> World -> Prop) w :
  Q (Thrown e) w -> wp (throw e) Q w.
Proof. exact (fun H => H). Qed.

Lemma wp_gets (f : World -> A) Q w : Q (Normal (f w)) w -> wp (gets f) Q w.
Proof. exact (fun H => H). Qed.

Lemma wp_lift (x : Exception + A) Q w :
  match x with inl e => Q (Thrown e) w | inr a => Q (Normal a) w end ->
  wp (lift x) Q w.
Proof. destruct x; exact (fun H => H). Qed.

Lemma wp_try_catch (body : M A) handler Q w :
  wp body (after_body handler Q) w -> wp (try_catch body handler) Q w.
Proof.
  unfold wp, try_catch, after_body. destruct (body w) as [[a|r|e] w']; cbn; auto.
Qed.

Lemma wp_try_finally (body : M A) cleanup Q w :
  wp body (fun o w' => wp cleanup (after_cleanup o Q) w') w ->
  wp (try_finally body cleanup) Q w.
Proof.
  unfold wp, try_finally, after_cleanup. destruct (body w) as [o w']; cbn.
  destruct (cleanup w') as [[a|r|e] w'']; cbn; auto.
Qed.

Lemma wp_conseq (m : M A) (P Q : outcome A -> World -> Prop) w :
  wp m P w -> (forall o w', P o w' -> Q o w') -> wp m Q w.
Proof. unfold wp. auto. Qed.

End Rules.

Lemma wp_modify f Q w : Q (Normal tt) (f w) -> wp (modify f) Q w.
Proof. exact (fun H => H). Qed.

Lemma wp_call body Q w : wp body (after_call Q) w -> wp (call body) Q w.
Proof.
  unfold wp, call, after_call. destruct (body w) as [[a|r|e] w']; cbn; auto.
  destruct a.
Qed.

Lemma with_faults_same w : with_faults (faults w) w = w.
Proof. destruct w; reflexivity. Qed.

Lemma configured_None v w : configured None v w = w.
Proof. destruct w; unfold configured; cbn. now rewrite app_nil_r. Qed.

Lemma ensured_false dir w : ensured false dir w = w.
Proof. destruct w; unfold ensured; cbn. now rewrite app_nil_r. Qed.

(** A call that may throw: either it does, or it has its effect; in both
    cases the oracle moves on. *)
Lemma wp_fallible f Q w :
  (forall fs, Q (Normal tt) (f (with_faults fs w))) ->
  (forall fs msg, Q (Thrown (mkException msg)) (with_faults fs w)) ->
  wp (fallible f) Q w.
Proof.
  intros Hn Ht. unfold wp, fallible.
  destruct (faults w) as [|[msg|] fs] eqn:E; cbn.
  - rewrite <- (with_faults_same w), E. apply Hn.
  - apply Ht.
  - apply Hn.
Qed.

(** With an oracle that is silent, the call has its effect. *)
Lemma wp_fallible_quiet f Q w :
  faults w = [] -> Q (Normal tt) (f w) -> wp (fallible f) Q w.
Proof. intros E H. unfold wp, fallible. rewrite E. exact H. Qed.

Lemma wp_TrySetResult r Q w :
  match tcs w with
  | None => Q (Normal true) (record (EvTrySetResult r) (with_tcs (Some r) w))
  | Some _ => Q (Normal false) (record (EvTrySetResult r) w)
  end ->
  wp (TrySetResult r) Q w.
Proof. unfold wp, TrySetResult. destruct (tcs w); exact (fun H => H). Qed.

Lemma wp_mode_switch mode g v Q w :
  Q (Normal tt) (configured (mode_flag mode g) v w) ->
  wp (if mode =? "basic" then set_drawGizmos v false
      else if (mode =? "labels") || (mode =? "debug")
           then set_drawGizmos v true
      else if mode =? "custom" then set_drawGizmos v g
      else ret tt) Q w.
Proof.
  unfold mode_flag.
  destruct (mode =? "basic");
    [|destruct ((mode =? "labels") || (mode =? "debug"));
      [|destruct (mode =? "custom")]];
    try exact (fun H => H).
  rewrite configured_None. exact (fun H => H).
Qed.

Lemma wp_ensure_directory (b : bool) dir Q w :
  (forall fs created, Q (Normal tt) (ensured created dir (with_faults fs w))) ->
  (forall fs msg, Q (Thrown (mkException msg)) (with_faults fs w)) ->
  wp (if negb b then Directory_CreateDirectory dir else ret tt) Q w.
Proof.
  intros Hn Ht. destruct b; cbn [negb].
  - apply wp_ret. rewrite <- (ensured_false dir w), <- (with_faults_same w).
    apply Hn.
  - apply wp_fallible; [intro fs; apply (Hn fs true)|exact Ht].
Qed.

Lemma wp_ensure_directory_quiet (b : bool) dir Q w :
  faults w = [] ->
  (forall created, Q (Normal tt) (ensured created dir w)) ->
  wp (if negb b then Directory_CreateDirectory dir else ret tt) Q w.
Proof.
  intros E Hn. destruct b; cbn [negb].
  - apply wp_ret. rewrite <- (ensured_false dir w). apply Hn.
  - apply wp_fallible_quiet; [exact E|apply (Hn true)].
Qed.

Ltac wsimpl :=
  cbn [after_bind after_body after_cleanup after_call fst snd
       env drawGizmos targetTexture active temporaries nextTemporary
       directories files tcs faults log
       with_drawGizmos with_targetTexture with_active with_temporaries
       with_directories with_files with_tcs with_faults record
       configured ensured].

Ltac wp_prim :=
  lazymatch goal with
  | |- wp (bind _ _) _ _ => apply wp_bind
  | |- wp (ret _) _ _ => apply wp_ret
  | |- wp (return_ _) _ _ => apply wp_return
  | |- wp (throw _) _ _ => apply wp_throw
  | |- wp (gets _) _ _ => apply wp_gets
  | |- wp (modify _) _ _ => apply wp_modify
  | |- wp (try_catch _ _) _ _ => apply wp_try_catch
  | |- wp (try_finally _ _) _ _ => apply wp_try_finally
  | |- wp (call _) _ _ => apply wp_call
  | |- wp (lift _) _ _ => apply wp_lift
  | |- wp (TrySetResult _) _ _ => apply wp_TrySetResult
  | |- wp (if (_ =? "basic") then _ else _) _ _ => apply wp_mode_switch
  | |- wp (match ?x with _ => _ end) _ _ => destruct x eqn:?
  | |- wp (set_drawGizmos _ _) _ _ => unfold set_drawGizmos
  | |- wp (Repaint _) _ _ => unfold Repaint
  | |- wp (Directory_Exists _) _ _ => unfold Directory_Exists
  | |- wp (Directory_CreateDirectory _) _ _ => unfold Directory_CreateDirectory
  | |- wp (RenderTexture_GetTemporary _ _) _ _ =>
      unfold RenderTexture_GetTemporary
  | |- wp (RenderTexture_ReleaseTemporary _) _ _ =>
      unfold RenderTexture_ReleaseTemporary
  | |- wp (set_targetTexture _ _) _ _ => unfold set_targetTexture
  | |- wp (set_active _) _ _ => unfold set_active
  | |- wp (Camera_Render _) _ _ => unfold Camera_Render
  | |- wp (new_Texture2D _ _) _ _ => unfold new_Texture2D
  | |- wp (ReadPixels _ _ _) _ _ => unfold ReadPixels
  | |- wp (Apply _) _ _ => unfold Apply
  | |- wp (EncodeToPNG _) _ _ => unfold EncodeToPNG
  | |- wp (File_WriteAllBytes _ _) _ _ => unfold File_WriteAllBytes
  | |- wp (DestroyImmediate _) _ _ => unfold DestroyImmediate
  | |- wp (Debug_Log _) _ _ => unfold Debug_Log
  | |- wp (Debug_LogError _) _ _ => unfold Debug_LogError
  | |- match ?x with inl _ => _ | inr _ => _ end => destruct x eqn:?
  | |- match ?x with Some _ => _ | None => _ end => destruct x eqn:?
  end.

(** Every path, faults included. *)
Ltac wp_step :=
  first
    [ lazymatch goal with
      | |- wp (fallible _) _ _ => apply wp_fallible; intros
      | |- wp (if negb _ then _ else _) _ _ =>
          apply wp_ensure_directory; intros
      end
    | wp_prim ];
  wsimpl.

Ltac wp_run := repeat wp_step.

(** The one path on which no call throws. *)
Ltac wp_step_quiet :=
  first
    [ lazymatch goal with
      | |- wp (fallible _) _ _ =>
          apply wp_fallible_quiet; [wsimpl; assumption|]
      | |- wp (if negb _ then _ else _) _ _ =>
          apply wp_ensure_directory_quiet; [wsimpl; assumption|intros]
      end
    | wp_prim ];
  wsimpl.

Ltac wp_run_quiet := repeat wp_step_quiet.

Lemma update_update {T} (f : nat -> T) k a b x :
  update (update f k a) k b x = update f k b x.
Proof. unfold update. destruct (x =? k)%nat; reflexivity. Qed.

Lemma update_same {T} (f : nat -> T) k x : update f k (f k) x = f x.
Proof.
  unfold update. destruct (x =? k)%nat eqn:E; [|reflexivity].
  apply Nat.eqb_eq in E. now subst.
Qed.


Ltac use_equations :=
  repeat match goal with
         | H : ?x = _ |- context [?x] => rewrite H
         end.

Lemma update_eq {T} (f : nat -> T) k a : update f k a k = a.
Proof. unfold update. now rewrite Nat.eqb_refl. Qed.

Lemma remove_first_head t l : remove_first t (t :: l) = l.
Proof. cbn. now rewrite Nat.eqb_refl. Qed.

Ltac event_ok :=
  cbn;
  first [ exact I | reflexivity | discriminate
        | split; [reflexivity|auto] ].

Ltac log_goal :=
  rewrite <- ?app_assoc;
  first [ eexists; split; [reflexivity|]
        | exists []; split; [symmetry; apply app_nil_r|] ];
  repeat match goal with
         | |- context [if ?b then _ else _] => is_var b; destruct b
         end;
  cbn [app];
  repeat (apply Forall_cons; [event_ok|]); apply Forall_nil.

Ltac result_goal :=
  lazymatch goal with
  | |- context [Normal (CreateErrorResponse _ "capture_failed") = _] =>
      first [ left; eexists; reflexivity | right; eexists; reflexivity ]
  | |- context [Normal (CreateErrorResponse _ "no_camera") = _] =>
      left; reflexivity
  | |- _ =>
      right; split; [|reflexivity];
      unfold success_response, screenshot_path;
      rewrite ?update_eq;
      match goal with
      | |- context [activeGameObject ?e] => destruct (activeGameObject e)
      end; reflexivity
  end.

Ltac leaf :=
  intros;
  try match goal with
      | |- context [mode_flag ?m ?g] => destruct (mode_flag m g) eqn:?
      end;
  lazymatch goal with
  | |- exists _, _ => log_goal
  | |- _ \/ _ => result_goal
  | |- _ = _ =>
      rewrite ?update_update, ?update_same, ?remove_first_head; reflexivity
  end.


(** ** Every path of [CaptureSceneViewScreenshot] *)

Lemma capture_runs mode g l wd ht w :
  wp (CaptureSceneViewScreenshot mode g l wd ht)
     (capture_post mode g l wd ht w) w.
Proof.
  unfold CaptureSceneViewScreenshot.
  wp_run.
  all: unfold capture_post, resolve_view; wsimpl; use_equations.
  all: repeat match goal with
              | |- _ /\ _ => split
              | |- match camera ?e ?v with _ => _ end => destruct (camera e v)
              end.
  all: leaf.
Qed.

Lemma run_eq {A} (m : M A) w : m w = (fst (m w), snd (m w)).
Proof. now destruct (m w). Qed.

Lemma wp_cut {A} (m : M A) (P Q : outcome A -> World -> Prop) w :
  wp m P w ->
  (forall o w', m w = (o, w') -> P o w' -> Q o w') ->
  wp m Q w.
Proof. unfold wp. intros HP H. apply H; [apply run_eq|exact HP]. Qed.

Lemma capture_post_returns mode g l wd ht w o w' :
  capture_post mode g l wd ht w o w' -> exists r, o = Normal r.
Proof.
  intros (_ & _ & _ & _ & _ & _ & H).
  destruct (resolve_view (env w)) as [v|].
  - destruct H as [_ H]. destruct (camera (env w) v).
    + destruct H as [[msg ->]|[-> _]]; eauto.
    + destruct H as [_ [->|[msg ->]]]; eauto.
  - destruct H as [-> _]. eauto.
Qed.

Lemma results_set_app l1 l2 :
  results_set (l1 ++ l2) = (results_set l1 ++ results_set l2)%list.
Proof.
  induction l1 as [|e l1 IH]; [reflexivity|].
  destruct e; cbn; rewrite IH; reflexivity.
Qed.

Lemma capture_events_set_no_result v g0 flag cam d :
  Forall (capture_event v g0 flag cam) d -> results_set d = [].
Proof.
  induction 1 as [|e d He _ IH]; [reflexivity|].
  destruct e; cbn in *; auto. contradiction.
Qed.

Lemma capture_post_results_set mode g l wd ht w o w' :
  capture_post mode g l wd ht w o w' ->
  results_set (log w') = results_set (log w).
Proof.
  intros (_ & _ & _ & _ & _ & _ & H).
  destruct (resolve_view (env w)) as [v|].
  - destruct H as [(d & -> & Hd) _].
    rewrite results_set_app, (capture_events_set_no_result _ _ _ _ _ Hd).
    apply app_nil_r.
  - destruct H as [_ ->]. reflexivity.
Qed.

(** ** Every path of the closure *)

Lemma closure_runs parameters w :
  wp (ExecuteAsync parameters) (closure_post parameters w) w.
Proof.
  unfold ExecuteAsync.
  wp_run.
  9: {
    eapply wp_cut; [apply capture_runs|].
    intros o w1 Hrun Hpost.
    destruct (capture_post_returns _ _ _ _ _ _ _ _ Hpost) as [r ->].
    pose proof (capture_post_results_set _ _ _ _ _ _ _ _ Hpost) as Hres.
    destruct Hpost as (He & Hg & Ht & Ha & Htmp & Htcs & _).
    wsimpl. wp_run.
    all: unfold closure_post; wsimpl.
    all: repeat split; auto.
    all: exists r; rewrite results_set_app, Hres; cbn [results_set].
    all: rewrite ?Heqo, <- Htcs; repeat split.
    all: right; exists s, b, b0, s0, w1.
    all: rewrite Heqp; cbn [fst snd]; auto 10.
  }
  all: unfold closure_post; wsimpl; rewrite Heqo.
  all: repeat split.
  all: eexists; rewrite !results_set_app; cbn [results_set];
    rewrite app_nil_r; repeat split.
  all: left; eexists; split; [reflexivity|auto].
Qed.

(** ** The path on which nothing throws *)

(** Brings together what the hypotheses and the case analysis say about
    the same option; closes the goal when they disagree. *)
Ltac same_options :=
  repeat match goal with
         | H : ?x = _, H' : match ?x with _ => _ end = _ |- _ =>
             rewrite H in H'
         end;
  try congruence;
  repeat match goal with
         | H1 : ?x = Some ?a, H2 : ?x = Some ?b |- _ =>
             tryif constr_eq a b then clear H2
             else (assert (b = a) by congruence; subst b)
         | H : Some ?a = Some ?b |- _ =>
             tryif constr_eq a b then clear H
             else (assert (b = a) by congruence; subst b)
         end.

Lemma capture_succeeds mode g l wd ht w v c :
  faults w = [] ->
  resolve_view (env w) = Some v ->
  camera (env w) v = Some c ->
  wp (CaptureSceneViewScreenshot mode g l wd ht)
     (fun o w' =>
        o = Normal (success_response (env w) mode l wd ht c (drawGizmos w v)) /\
        files w' = (screenshot_path (env w) mode, (wd, ht)) :: files w /\
        tcs w' = tcs w)
     w.
Proof.
  intros Hf Hv Hc.
  unfold CaptureSceneViewScreenshot, resolve_view in *.
  wp_run_quiet.
  all: same_options.
  all: repeat split.
  all: unfold success_response, screenshot_path; rewrite ?update_eq.
  all: destruct (activeGameObject (env w)); reflexivity.
Qed.

Lemma capture_without_camera mode g l wd ht w v :
  faults w = [] ->
  resolve_view (env w) = Some v ->
  camera (env w) v = None ->
  wp (CaptureSceneViewScreenshot mode g l wd ht)
     (fun o _ => o = Normal no_camera_response) w.
Proof.
  intros Hf Hv Hc.
  unfold CaptureSceneViewScreenshot, resolve_view in *.
  wp_run_quiet.
  all: same_options.
  all: reflexivity.
Qed.

Lemma closure_succeeds parameters mode g l res w v c :
  string_parameter parameters "mode" "basic" = inr mode ->
  bool_parameter parameters "withGizmos" true = inr g ->
  bool_parameter parameters "withLabels" false = inr l ->
  string_parameter parameters "resolution" "1080p" = inr res ->
  faults w = [] ->
  tcs w = None ->
  resolve_view (env w) = Some v ->
  camera (env w) v = Some c ->
  wp (ExecuteAsync parameters)
     (fun o w' =>
        o = Normal tt /\
        tcs w' =
          Some (success_response (env w) mode l
                  (fst (resolution_switch res)) (snd (resolution_switch res))
                  c (drawGizmos w v)) /\
        files w' = (screenshot_path (env w) mode, resolution_switch res) :: files w)
     w.
Proof.
  intros Hm Hg Hl Hr Hf Ht Hv Hc.
  unfold ExecuteAsync. rewrite Hm, Hg, Hl, Hr.
  wp_run.
  eapply wp_conseq; [apply (capture_succeeds _ _ _ _ _ w v c Hf Hv Hc)|].
  intros o w' (-> & Hfiles & Htcs). wsimpl.
  wp_run; [congruence|].
  repeat split; assumption.
Qed.

(** ** Statements that differ in their values only *)

Lemma sim_return {A} r1 r2 : sim (@return_ A r1) (return_ r2).
Proof. intro w. split; [reflexivity|exact I]. Qed.

Lemma sim_bind {A B} (m : M A) (k1 k2 : A -> M B) :
  (forall a, sim (k1 a) (k2 a)) -> sim (bind m k1) (bind m k2).
Proof.
  intros H w. unfold bind. destruct (m w) as [[a|r|e] w']; cbn.
  - apply H.
  - split; [reflexivity|exact I].
  - split; reflexivity.
Qed.

Lemma sim_try_catch {A} (b1 b2 : M A) handler :
  sim b1 b2 -> sim (try_catch b1 handler) (try_catch b2 handler).
Proof.
  intros H w. unfold try_catch. destruct (H w) as [Hw Hk].
  destruct (b1 w) as [[a1|r1|e1] w1], (b2 w) as [[a2|r2|e2] w2];
    cbn in *; subst; try contradiction; split; try reflexivity; try exact I.
  destruct (handler e2 w2) as [[?|?|?] ?]; cbn; auto.
Qed.

Lemma sim_call b1 b2 : sim b1 b2 -> sim (call b1) (call b2).
Proof.
  intros H w. unfold call. destruct (H w) as [Hw Hk].
  destruct (b1 w) as [[a1|r1|e1] w1], (b2 w) as [[a2|r2|e2] w2];
    cbn in *; subst; try contradiction; try destruct a1;
    split; try reflexivity; exact I.
Qed.

Ltac sim_step :=
  lazymatch goal with
  | |- sim (call _) (call _) => apply sim_call
  | |- sim (try_catch _ _) (try_catch _ _) => apply sim_try_catch
  | |- sim (bind _ _) (bind _ _) => apply sim_bind; intros
  | |- sim (return_ _) (return_ _) => apply sim_return
  | |- sim (match ?x with _ => _ end) _ => destruct x
  end.

Lemma labels_only_in_response mode g l1 l2 wd ht :
  sim (CaptureSceneViewScreenshot mode g l1 wd ht)
      (CaptureSceneViewScreenshot mode g l2 wd ht).
Proof. unfold CaptureSceneViewScreenshot. repeat sim_step. Qed.

Lemma gizmos_only_in_custom mode g1 g2 l wd ht :
  (mode =? "custom") = false ->
  CaptureSceneViewScreenshot mode g1 l wd ht
  = CaptureSceneViewScreenshot mode g2 l wd ht.
Proof. intro H. unfold CaptureSceneViewScreenshot. rewrite H. reflexivity. Qed.

(** ** Runs that keep track of the directory *)

Lemma wp_ensure_directory_exact (b : bool) dir Q w :
  (forall fs created,
     created = negb b ->
     Q (Normal tt) (ensured created dir (with_faults fs w))) ->
  (forall fs msg, Q (Thrown (mkException msg)) (with_faults fs w)) ->
  wp (if negb b then Directory_CreateDirectory dir else ret tt) Q w.
Proof.
  intros Hn Ht. destruct b; cbn [negb].
  - apply wp_ret. rewrite <- (ensured_false dir w), <- (with_faults_same w).
    now apply Hn.
  - apply wp_fallible; [intro fs; now apply (Hn fs true)|exact Ht].
Qed.

Lemma wp_ensure_directory_quiet_exact (b : bool) dir Q w :
  faults w = [] ->
  Q (Normal tt) (ensured (negb b) dir w) ->
  wp (if negb b then Directory_CreateDirectory dir else ret tt) Q w.
Proof.
  intros E Hn. destruct b; cbn [negb] in *.
  - apply wp_ret. now rewrite <- (ensured_false dir w).
  - apply wp_fallible_quiet; [exact E|exact Hn].
Qed.

(** Every path, keeping track of whether the directory was there. *)
Ltac wp_step_exact :=
  first
    [ lazymatch goal with
      | |- wp (fallible _) _ _ => apply wp_fallible; intros
      | |- wp (if negb _ then _ else _) _ _ =>
          apply wp_ensure_directory_exact; intros
      end
    | wp_prim ];
  wsimpl.

Ltac wp_step_quiet_exact :=
  first
    [ lazymatch goal with
      | |- wp (fallible _) _ _ =>
          apply wp_fallible_quiet; [wsimpl; assumption|]
      | |- wp (if negb _ then _ else _) _ _ =>
          apply wp_ensure_directory_quiet_exact; [wsimpl; assumption|]
      end
    | wp_prim ];
  wsimpl.

Ltac directory_known :=
  match goal with
  | H : ?created = negb ?b |- _ =>
      destruct created, b; cbn [negb] in H; try discriminate H;
      cbn [existsb]; rewrite ?String.eqb_refl; cbn [orb]
  end.

(** A run that ends with the no-camera failure has gone through
    Configuring and Restoring, and through nothing else. *)
Lemma no_camera_runs mode g l wd ht w v :
  resolve_view (env w) = Some v ->
  camera (env w) v = None ->
  wp (CaptureSceneViewScreenshot mode g l wd ht)
     (fun o w' =>
        o = Normal no_camera_response ->
        log w' = (log w ++ no_camera_trace mode g w v)%list /\
        existsb (String.eqb (screenshot_dir (env w))) (directories w') = true)
     w.
Proof.
  intros Hv Hc.
  unfold CaptureSceneViewScreenshot, resolve_view in *.
  repeat wp_step_exact.
  all: same_options.
  all: intro Ho; try discriminate Ho.
  all: unfold no_camera_trace, screenshot_dir.
  all: directory_known; rewrite <- ?app_assoc; split; reflexivity.
Qed.

(** ** Consequences of the two summaries *)

Lemma capture_post_of_run mode g l wd ht w o w' :
  CaptureSceneViewScreenshot mode g l wd ht w = (o, w') ->
  capture_post mode g l wd ht w o w'.
Proof.
  intro H. pose proof (capture_runs mode g l wd ht w) as P.
  unfold wp in P. rewrite H in P. exact P.
Qed.

Lemma closure_post_of_run parameters w :
  closure_post parameters w (fst (ExecuteAsync parameters w))
    (snd (ExecuteAsync parameters w)).
Proof. exact (closure_runs parameters w). Qed.

(** The four shapes of a result of [CaptureSceneViewScreenshot]. *)
Lemma capture_result_shape mode g l wd ht w r w' :
  CaptureSceneViewScreenshot mode g l wd ht w = (Normal r, w') ->
  r = no_scene_view_response \/
  r = no_camera_response \/
  (exists msg, r = capture_failed_response msg) \/
  (exists v c,
     resolve_view (env w) = Some v /\ camera (env w) v = Some c /\
     r = success_response (env w) mode l wd ht c (drawGizmos w v)).
Proof.
  intro H. apply capture_post_of_run in H.
  destruct H as (_ & _ & _ & _ & _ & _ & H).
  destruct (resolve_view (env w)) as [v|] eqn:Hv.
  - destruct H as [_ H]. destruct (camera (env w) v) as [c|] eqn:Hc.
    + destruct H as [[msg H]|[H _]]; injection H as ->; eauto 10.
    + destruct H as [_ [H|[msg H]]]; injection H as ->; eauto 10.
  - destruct H as [H _]. injection H as ->. auto.
Qed.

Lemma mode_flag_unrecognized mode g :
  mode <> "basic" -> mode <> "labels" -> mode <> "debug" -> mode <> "custom" ->
  mode_flag mode g = None.
Proof.
  intros H1 H2 H3 H4. unfold mode_flag.
  apply String.eqb_neq in H1, H2, H3, H4. now rewrite H1, H2, H3, H4.
Qed.

(** * The claims *)

(** C1.  The gizmo flag of every Scene View is, after an invocation, what it
    was before it: after the method [CaptureSceneViewScreenshot] and after
    the whole closure, whatever the arguments, the editor and the calls
    that throw (so on success, on the no-camera failure and on any
    exception during rendering or persisting). *)
Theorem gizmo_flag_restored :
  forall parameters mode g l wd ht w v,
    drawGizmos (snd (CaptureSceneViewScreenshot mode g l wd ht w)) v
    = drawGizmos w v /\
    drawGizmos (snd (ExecuteAsync parameters w)) v = drawGizmos w v.
Proof.
  intros. split.
  - apply (capture_runs mode g l wd ht w).
  - apply (closure_runs parameters w).
Qed.

(** A capture in which [ReadPixels] throws: the flag was cleared for the
    capture and set back, the camera and the active texture were pointed
    at the temporary and set back, the temporary was released, and the
    result is a failure. *)
Example capture_with_failing_readback :
  let w := sample_world (Some 0%nat) (Some 7%nat)
             [None; None; None; None; None; Some "read-back failed"] in
  let run := CaptureSceneViewScreenshot "basic" true false 1920 1080 w in
  fst run = Normal (capture_failed_response "read-back failed") /\
  log (snd run) =
    [EvCreateDirectory "/proj/Assets/../Temp/MCPScreenshots";
     EvSetDrawGizmos 0 false; EvRepaint 0;
     EvGetTemporary 0 1920 1080;
     EvSetTargetTexture 7 (Some 0%nat); EvSetActive (Some 0%nat);
     EvRender 7; EvNewTexture2D 1920 1080;
     EvSetTargetTexture 7 None; EvSetActive None; EvReleaseTemporary 0;
     EvSetDrawGizmos 0 true; EvRepaint 0] /\
  drawGizmos (snd run) 0%nat = true /\
  temporaries (snd run) = [] /\
  files (snd run) = [].
Proof. vm_compute. repeat split. Qed.

(** C3.  The resolution asked for decides the size of the capture.  For
    a call whose [resolution] is the string [s] and whose other parameters
    decode, the closure runs [CaptureSceneViewScreenshot] with a width and
    a height that are 3840x2160 for "4K", 2560x1440 for "1440p", 1920x1080
    for "1080p", and 1920x1080 for every string the switch does not
    recognise (one that is, in lower case, neither "1440p" nor "4k"), and
    hands the result of that run to the completion source: no such string
    is an error.  Where nothing throws, in an editor with a Scene View and
    a camera, what is delivered is the success response for that size and
    the file written has that size. *)
Theorem resolution_dimensions :
  forall parameters s mode g l w,
    property "resolution" parameters = Some (JString s) ->
    string_parameter parameters "mode" "basic" = inr mode ->
    bool_parameter parameters "withGizmos" true = inr g ->
    bool_parameter parameters "withLabels" false = inr l ->
    exists wd ht,
      ((s = "4K" -> (wd, ht) = (3840, 2160)%Z) /\
       (s = "1440p" -> (wd, ht) = (2560, 1440)%Z) /\
       (s = "1080p" -> (wd, ht) = (1920, 1080)%Z) /\
       (ToLower s <> "1440p" -> ToLower s <> "4k" ->
        (wd, ht) = (1920, 1080)%Z)) /\
      (exists r w1,
         CaptureSceneViewScreenshot mode g l wd ht w = (Normal r, w1) /\
         results_set (log (snd (ExecuteAsync parameters w)))
         = (results_set (log w) ++ [r])%list) /\
      (forall v c,
         faults w = [] ->
         tcs w = None ->
         resolve_view (env w) = Some v ->
         camera (env w) v = Some c ->
         delivered parameters w
         = Some (success_response (env w) mode l wd ht c (drawGizmos w v)) /\
         item (success_response (env w) mode l wd ht c (drawGizmos w v))
           "resolution"
         = Some (JString (Int32_ToString wd ++ "x" ++ Int32_ToString ht)) /\
         files (snd (ExecuteAsync parameters w))
         = (screenshot_path (env w) mode, (wd, ht)) :: files w).
Proof.
  intros parameters s mode g l w Hs Hm Hg Hl.
  assert (Hr : string_parameter parameters "resolution" "1080p"
               = inr (ToLower s)).
  { unfold string_parameter. rewrite Hs. reflexivity. }
  exists (fst (resolution_switch (ToLower s))),
         (snd (resolution_switch (ToLower s))).
  rewrite <- surjective_pairing.
  split; [|split].
  - repeat split.
    + intros ->. reflexivity.
    + intros ->. reflexivity.
    + intros ->. reflexivity.
    + intros H1 H2. unfold resolution_switch.
      apply String.eqb_neq in H1, H2. now rewrite H1, H2.
  - destruct (closure_post_of_run parameters w)
      as (_ & _ & _ & _ & _ & _ & r & Hres & _ & Hrun).
    destruct Hrun
      as [(e & _ & [H|[H|[H|H]]])
         |(mode' & g' & l' & res' & w1 & Hm' & Hg' & Hl' & Hr' & Hrun & _)];
      try congruence.
    exists r, w1. split; [|exact Hres].
    congruence.
  - intros v c Hf Ht Hv Hc.
    destruct (closure_succeeds parameters mode g l (ToLower s) w v c
                Hm Hg Hl Hr Hf Ht Hv Hc) as (_ & Hd & Hfiles).
    split; [exact Hd|]. split; [reflexivity|exact Hfiles].
Qed.

Lemma resolution_dimensions_witness :
  exists wd ht,
    (("4K" = "4K" -> (wd, ht) = (3840, 2160)%Z) /\
     ("4K" = "1440p" -> (wd, ht) = (2560, 1440)%Z) /\
     ("4K" = "1080p" -> (wd, ht) = (1920, 1080)%Z) /\
     (ToLower "4K" <> "1440p" -> ToLower "4K" <> "4k" ->
      (wd, ht) = (1920, 1080)%Z)) /\
    (exists r w1,
       CaptureSceneViewScreenshot "basic" true false wd ht world0
       = (Normal r, w1) /\
       results_set
         (log (snd (ExecuteAsync [("resolution", JString "4K")] world0)))
       = (results_set (log world0) ++ [r])%list) /\
    (forall v c,
       faults world0 = [] ->
       tcs world0 = None ->
       resolve_view (env world0) = Some v ->
       camera (env world0) v = Some c ->
       delivered [("resolution", JString "4K")] world0
       = Some (success_response (env world0) "basic" false wd ht c
                 (drawGizmos world0 v)) /\
       item (success_response (env world0) "basic" false wd ht c
               (drawGizmos world0 v))
         "resolution"
       = Some (JString (Int32_ToString wd ++ "x" ++ Int32_ToString ht)) /\
       files (snd (ExecuteAsync [("resolution", JString "4K")] world0))
       = (screenshot_path (env world0) "basic", (wd, ht)) :: files world0).
Proof.
  apply (resolution_dimensions [("resolution", JString "4K")] "4K" "basic"
           true false world0); reflexivity.
Defined.



(** C5 as the spec words it fails for the camera: the camera is looked at
    after the screenshot directory was made and the mode's flag was set.
    In an editor with a Scene View that has no camera, a "basic" capture
    ends with the no-camera failure, and on the way it has created the
    directory, cleared the gizmo flag, repainted, and set the flag back. *)
Lemma no_camera_found_after_configuring :
  let w := sample_world (Some 0%nat) None [] in
  let run := CaptureSceneViewScreenshot "basic" true false 1920 1080 w in
  resolve_view (env w) = Some 0%nat /\
  camera (env w) 0%nat = None /\
  fst run = Normal no_camera_response /\
  log (snd run) =
    [EvCreateDirectory "/proj/Assets/../Temp/MCPScreenshots";
     EvSetDrawGizmos 0 false; EvRepaint 0;
     EvSetDrawGizmos 0 true; EvRepaint 0] /\
  log (snd run) <> log w /\
  directories (snd run) <> directories w.
Proof. vm_compute. repeat split; discriminate. Qed.

(** C5, amended.  Without a Scene View the method returns the
    no-scene-view failure and leaves the world as it found it.  With a
    Scene View that has no camera the method returns a failure, the
    no-camera one unless a call threw (when nothing throws, it is the
    no-camera one).  The camera is missed only after Configuring: a run
    that ends with the no-camera failure has, in this order, created the
    screenshot directory when it was absent, set the mode's gizmo flag,
    repainted, set the flag back and repainted again, and the directory
    is there.  On every path with no camera the flag is what it was, no
    step of rendering or persisting has run and no file was written. *)
Theorem target_resolution_failures :
  forall mode g l wd ht w,
    (resolve_view (env w) = None ->
     CaptureSceneViewScreenshot mode g l wd ht w
     = (Normal no_scene_view_response, w)) /\
    (forall v,
       resolve_view (env w) = Some v ->
       camera (env w) v = None ->
       let run := CaptureSceneViewScreenshot mode g l wd ht w in
       (exists r,
          fst run = Normal r /\ is_failure r = true /\
          (r = no_camera_response \/ exists msg, r = capture_failed_response msg) /\
          (faults w = [] -> r = no_camera_response)) /\
       (fst run = Normal no_camera_response ->
        log (snd run) = (log w ++ no_camera_trace mode g w v)%list /\
        existsb (String.eqb (screenshot_dir (env w))) (directories (snd run))
        = true) /\
       (exists d,
          log (snd run) = (log w ++ d)%list /\
          Forall (fun e => rendering_event e = false) d) /\
       files (snd run) = files w /\
       (forall x, drawGizmos (snd run) x = drawGizmos w x)).
Proof.
  intros mode g l wd ht w.
  pose proof (capture_runs mode g l wd ht w) as P. unfold wp in P.
  destruct P as (_ & Hg & _ & _ & _ & _ & P).
  split.
  - intro Hv. rewrite Hv in P. destruct P as [Ho Hw].
    rewrite (run_eq (CaptureSceneViewScreenshot mode g l wd ht) w).
    now rewrite Ho, Hw.
  - intros v Hv Hc. cbv zeta. rewrite Hv, Hc in P.
    destruct P as [(d & Hlog & Hd) [Hfiles Ho]].
    split; [|split; [|split; [|split]]].
    + pose proof (capture_without_camera mode g l wd ht w v) as Q.
      unfold wp in Q.
      destruct Ho as [Ho|[msg Ho]]; rewrite Ho.
      * exists no_camera_response. repeat split; auto.
      * exists (capture_failed_response msg). repeat split; eauto.
        intro Hf. specialize (Q Hf Hv Hc). rewrite Ho in Q.
        now injection Q.
    + exact (no_camera_runs mode g l wd ht w v Hv Hc).
    + exists d. split; [exact Hlog|].
      eapply Forall_impl; [|exact Hd].
      intros e He. destruct e; cbn in *; try reflexivity; now destruct He.
    + exact Hfiles.
    + exact Hg.
Qed.

Lemma target_resolution_failures_witness :
  CaptureSceneViewScreenshot "debug" true false 1920 1080
    (sample_world None None [])
  = (Normal no_scene_view_response, sample_world None None []) /\
  (let w := sample_world (Some 0%nat) None [] in
   let run := CaptureSceneViewScreenshot "debug" true false 1920 1080 w in
   (exists r,
      fst run = Normal r /\ is_failure r = true /\
      (r = no_camera_response \/ exists msg, r = capture_failed_response msg) /\
      (faults w = [] -> r = no_camera_response)) /\
   (fst run = Normal no_camera_response ->
    log (snd run) = (log w ++ no_camera_trace "debug" true w 0%nat)%list /\
    existsb (String.eqb (screenshot_dir (env w))) (directories (snd run))
    = true) /\
   (exists d,
      log (snd run) = (log w ++ d)%list /\
      Forall (fun e => rendering_event e = false) d) /\
   files (snd run) = files w /\
   (forall x, drawGizmos (snd run) x = drawGizmos w x)).
Proof.
  split.
  - apply (proj1 (target_resolution_failures "debug" true false 1920 1080
                    (sample_world None None []))).
    reflexivity.
  - apply (proj2 (target_resolution_failures "debug" true false 1920 1080
                    (sample_world (Some 0%nat) None [])) 0%nat eq_refl eq_refl).
Defined.

(** C6.  The camera's render target, the active render texture and the
    set of temporaries that are handed out are, after an invocation, what
    they were before it, whatever throws: what rendering redirected is put
    back and the temporary it took is released. *)
Theorem render_state_restored :
  forall parameters mode g l wd ht w,
    (let w' := snd (CaptureSceneViewScreenshot mode g l wd ht w) in
     (forall c, targetTexture w' c = targetTexture w c) /\
     active w' = active w /\
     temporaries w' = temporaries w) /\
    (let w' := snd (ExecuteAsync parameters w) in
     (forall c, targetTexture w' c = targetTexture w c) /\
     active w' = active w /\
     temporaries w' = temporaries w).
Proof.
  intros. split.
  - destruct (capture_runs mode g l wd ht w) as (_ & _ & Ht & Ha & Htmp & _).
    auto.
  - destruct (closure_runs parameters w) as (_ & _ & _ & Ht & Ha & Htmp & _).
    auto.
Qed.

(** C7 as the spec words it fails: failures carry four codes, not three.
    An editor without a Scene View, one whose view has no camera, one
    where the render call throws, and a call whose [withGizmos] does not
    convert, deliver four different codes; so no three codes cover the
    failures. *)
Lemma four_error_codes :
  (let r := delivered [] (sample_world None None []) in
   option_map is_failure r = Some true /\
   option_map error_code r = Some (Some "no_scene_view")) /\
  (let r := delivered [] (sample_world (Some 0%nat) None []) in
   option_map is_failure r = Some true /\
   option_map error_code r = Some (Some "no_camera")) /\
  (let r := delivered []
              (sample_world (Some 0%nat) (Some 7%nat)
                 [None; None; None; Some "render failed"]) in
   option_map is_failure r = Some true /\
   option_map error_code r = Some (Some "capture_failed")) /\
  (let r := delivered [("withGizmos", JString "maybe")] world0 in
   option_map is_failure r = Some true /\
   option_map error_code r = Some (Some "capture_exception")) /\
  ~ (exists c1 c2 c3 : string,
       forall parameters w r,
         tcs w = None ->
         delivered parameters w = Some r ->
         is_failure r = true ->
         exists c, error_code r = Some c /\ In c [c1; c2; c3]).
Proof.
  repeat split; try (vm_compute; reflexivity).
  intros (c1 & c2 & c3 & H).
  destruct (H [] (sample_world None None []) no_scene_view_response
              eq_refl eq_refl eq_refl) as (k1 & E1 & I1).
  destruct (H [] (sample_world (Some 0%nat) None []) no_camera_response
              eq_refl eq_refl eq_refl) as (k2 & E2 & I2).
  destruct (H []
              (sample_world (Some 0%nat) (Some 7%nat)
                 [None; None; None; Some "render failed"])
              (capture_failed_response "render failed")
              eq_refl eq_refl eq_refl) as (k3 & E3 & I3).
  destruct (H [("withGizmos", JString "maybe")] world0
              (capture_exception_response
                 "String was not recognized as a valid Boolean.")
              eq_refl eq_refl eq_refl) as (k4 & E4 & I4).
  injection E1 as <-. injection E2 as <-.
  injection E3 as <-. injection E4 as <-.
  cbn in I1, I2, I3, I4.
  destruct I1 as [I1|[I1|[I1|[]]]], I2 as [I2|[I2|[I2|[]]]],
    I3 as [I3|[I3|[I3|[]]]], I4 as [I4|[I4|[I4|[]]]];
    subst; discriminate.
Qed.

(** C7, amended.  Every failure that a run of the closure delivers
    carries a message and an error code, and the code is one of four:
    "no_scene_view", "no_camera", "capture_failed" (an exception inside
    [CaptureSceneViewScreenshot]) and "capture_exception" (an exception
    in the closure outside of it). *)
Theorem failure_codes :
  forall parameters w r,
    tcs w = None ->
    delivered parameters w = Some r ->
    is_failure r = true ->
    (exists m, error_message r = Some m) /\
    (exists c,
       error_code r = Some c /\
       In c ["no_scene_view"; "no_camera"; "capture_failed";
             "capture_exception"]).
Proof.
  intros parameters w r Hopen Hd Hfail. unfold delivered in Hd.
  destruct (closure_post_of_run parameters w)
    as (_ & _ & _ & _ & _ & _ & r' & _ & Htcs & Hr).
  rewrite Hopen, Hd in Htcs. injection Htcs as <-.
  destruct Hr as [(e & -> & _)|(mode & g & l & res & w1 & _ & _ & _ & _ & Hrun & _)].
  - split; eexists; [reflexivity|]. split; [reflexivity|]. cbn. tauto.
  - apply capture_result_shape in Hrun.
    destruct Hrun as [->|[->|[[msg ->]|(v & c & _ & _ & ->)]]].
    + split; eexists; [reflexivity|]. split; [reflexivity|]. cbn. tauto.
    + split; eexists; [reflexivity|]. split; [reflexivity|]. cbn. tauto.
    + split; eexists; [reflexivity|]. split; [reflexivity|]. cbn. tauto.
    + discriminate Hfail.
Qed.

Lemma failure_codes_witness :
  (exists m, error_message no_scene_view_response = Some m) /\
  (exists c,
     error_code no_scene_view_response = Some c /\
     In c ["no_scene_view"; "no_camera"; "capture_failed";
           "capture_exception"]).
Proof.
  apply (failure_codes [] (sample_world None None []) no_scene_view_response);
    reflexivity.
Defined.

(** C8.  For the modes basic, labels and debug, two invocations that
    differ in [withGizmos] and [withLabels] only leave the same world: the
    same editor state and the same history of effects, every assignment
    to [drawGizmos] included. *)
Theorem overlay_independent_of_custom_flags :
  forall mode g1 l1 g2 l2 wd ht w,
    In mode ["basic"; "labels"; "debug"] ->
    snd (CaptureSceneViewScreenshot mode g1 l1 wd ht w)
    = snd (CaptureSceneViewScreenshot mode g2 l2 wd ht w).
Proof.
  intros mode g1 l1 g2 l2 wd ht w Hmode.
  assert (Hc : (mode =? "custom") = false).
  { destruct Hmode as [<-|[<-|[<-|[]]]]; reflexivity. }
  rewrite (gizmos_only_in_custom mode g1 g2 l1 wd ht Hc).
  apply (labels_only_in_response mode g2 l1 l2 wd ht w).
Qed.

Lemma overlay_independent_of_custom_flags_witness :
  snd (CaptureSceneViewScreenshot "basic" true false 1920 1080 world0)
  = snd (CaptureSceneViewScreenshot "basic" false true 1920 1080 world0).
Proof.
  apply (overlay_independent_of_custom_flags "basic" true false false true).
  cbn. tauto.
Defined.

(** C9.  The [withGizmos] field of a success response is the gizmo flag
    the Scene View had before the capture (the flag read after it was
    set back), not the flag of the mode. *)
Theorem reported_gizmos_are_the_restored_flag :
  forall mode g l wd ht w r,
    fst (CaptureSceneViewScreenshot mode g l wd ht w) = Normal r ->
    is_success r = true ->
    exists v,
      resolve_view (env w) = Some v /\
      item r "withGizmos" = Some (JBool (drawGizmos w v)) /\
      item r "withGizmos"
      = Some (JBool (drawGizmos
                       (snd (CaptureSceneViewScreenshot mode g l wd ht w)) v)).
Proof.
  intros mode g l wd ht w r Hr Hs.
  pose proof (run_eq (CaptureSceneViewScreenshot mode g l wd ht) w) as Hrun.
  rewrite Hr in Hrun.
  destruct (capture_result_shape _ _ _ _ _ _ _ _ Hrun)
    as [->|[->|[[msg ->]|(v & c & Hv & _ & ->)]]]; try discriminate Hs.
  exists v. split; [exact Hv|].
  destruct (capture_runs mode g l wd ht w) as (_ & -> & _).
  split; reflexivity.
Qed.

Lemma reported_gizmos_are_the_restored_flag_witness :
  mode_flag "basic" true = Some false /\
  exists v,
    resolve_view (env world0) = Some v /\
    item (success_response (env world0) "basic" false 1920 1080 7%nat true)
      "withGizmos"
    = Some (JBool (drawGizmos world0 v)) /\
    item (success_response (env world0) "basic" false 1920 1080 7%nat true)
      "withGizmos"
    = Some (JBool (drawGizmos
                     (snd (CaptureSceneViewScreenshot "basic" true false
                             1920 1080 world0)) v)).
Proof.
  split; [reflexivity|].
  apply (reported_gizmos_are_the_restored_flag "basic" true false 1920 1080
           world0); reflexivity.
Defined.



(** * The scene tools *)

Import SceneTools.

Lemma sendRequest_requests mcpUnity request :
  requests (snd (sendRequest mcpUnity request))
  = (requests mcpUnity ++ [request])%list.
Proof.
  unfold sendRequest. destruct (replies mcpUnity) as [|[r| |] rest]; reflexivity.
Qed.

Lemma sendRequest_not_validation mcpUnity request :
  match fst (sendRequest mcpUnity request) with
  | Rejected e => type e <> VALIDATION
  | Resolved _ => True
  | RejectedTypeError => False
  end.
Proof.
  unfold sendRequest.
  destruct (replies mcpUnity) as [|[r| |] rest]; cbn; try exact I; discriminate.
Qed.

Ltac after_request mcpUnity request :=
  pose proof (sendRequest_requests mcpUnity request) as Hreq;
  pose proof (sendRequest_not_validation mcpUnity request) as Hval;
  destruct (sendRequest mcpUnity request) as [[response|[ty msg]|] mcpUnity'];
  cbn [fst snd type] in *;
  [ destruct (nullish response);
    [|destruct (negb (truthy (member response "success")))];
    (split; [exact Hreq|reflexivity])
  | split; [exact Hreq|]; destruct ty; try reflexivity; now destruct Hval
  | destruct Hval ].

(** C2 as the spec words it fails for [create_scene]: a call that provides
    [scenePath] and no [sceneName] is turned down with a validation error,
    and no request is made. *)
Lemma create_scene_needs_sceneName :
  let params := [("scenePath", JsString "Assets/Scenes/Level1.unity")] in
  let mcpUnity :=
    mkMcpUnity [] [Response (JsObject [("success", JsBoolean true)])] in
  provided params "scenePath" = true /\
  handler create_scene mcpUnity params
  = (Rejected (mkError VALIDATION (JsString "'sceneName' must be provided")),
     mcpUnity) /\
  requests (snd (handler create_scene mcpUnity params)) = [].
Proof. repeat split. Qed.

(** C2, amended.  A call gets past the check when it provides what the
    tool requires: [sceneName] for [create_scene]; [scenePath] or
    [sceneName] for [load_scene] and [delete_scene].  When it does, the
    handler makes exactly one request, with the tool's name and the
    call's parameters, and does not end with a validation error.  When it
    does not, the handler ends with a validation error and makes no
    request. *)
Theorem scene_tools_validation :
  forall t mcpUnity params,
    (required t params = true ->
     requests (snd (handler t mcpUnity params))
     = (requests mcpUnity ++ [mkRequest (name t) params])%list /\
     is_validation_error (fst (handler t mcpUnity params)) = false) /\
    (required t params = false ->
     (exists msg,
        handler t mcpUnity params
        = (Rejected (mkError VALIDATION msg), mcpUnity)) /\
     requests (snd (handler t mcpUnity params)) = requests mcpUnity).
Proof.
  intros t mcpUnity params.
  destruct t; cbn [required handler name]; unfold provided;
    unfold createSceneTool.toolHandler, loadSceneTool.toolHandler,
      deleteSceneTool.toolHandler.
  - destruct (truthy (get params "sceneName")); cbn [negb];
      (split; intro Hgiven; try discriminate Hgiven).
    + after_request mcpUnity (mkRequest createSceneTool.toolName params).
    + split; [eexists|]; reflexivity.
  - destruct (truthy (get params "scenePath")),
      (truthy (get params "sceneName")); cbn [negb andb orb];
      (split; intro Hgiven; try discriminate Hgiven).
    1-3: after_request mcpUnity (mkRequest loadSceneTool.toolName params).
    split; [eexists|]; reflexivity.
  - destruct (truthy (get params "scenePath")),
      (truthy (get params "sceneName")); cbn [negb andb orb];
      (split; intro Hgiven; try discriminate Hgiven).
    1-3: after_request mcpUnity (mkRequest deleteSceneTool.toolName params).
    split; [eexists|]; reflexivity.
Qed.

Lemma scene_tools_validation_witness :
  (requests
     (snd (handler load_scene (mkMcpUnity [] [])
             [("sceneName", JsString "Level1")]))
   = [mkRequest "load_scene" [("sceneName", JsString "Level1")]] /\
   is_validation_error
     (fst (handler load_scene (mkMcpUnity [] [])
             [("sceneName", JsString "Level1")])) = false) /\
  ((exists msg,
      handler delete_scene (mkMcpUnity [] []) [("sceneName", JsString "")]
      = (Rejected (mkError VALIDATION msg), mkMcpUnity [] [])) /\
   requests
     (snd (handler delete_scene (mkMcpUnity [] []) [("sceneName", JsString "")]))
   = []).
Proof.
  split.
  - apply (proj1 (scene_tools_validation load_scene (mkMcpUnity [] [])
                    [("sceneName", JsString "Level1")])).
    reflexivity.
  - apply (proj2 (scene_tools_validation delete_scene (mkMcpUnity [] [])
                    [("sceneName", JsString "")])).
    reflexivity.
Defined.

(** * Further properties of the capture tool *)

(** ** The file system *)

Ltac storage_leaf :=
  lazymatch goal with
  | |- forall _, _ =>
      let r := fresh "r" in
      let Hr := fresh "Hr" in
      let Hs := fresh "Hs" in
      intros r Hr Hs; injection Hr as <-;
      first [ discriminate Hs | directory_known; reflexivity ]
  | |- ?a = ?a \/ _ => left; reflexivity
  | |- files _ = _ \/ _ =>
      right; split; [reflexivity|directory_known; reflexivity]
  | |- _ \/ _ =>
      directory_known;
      first [ left; reflexivity | right; split; reflexivity ]
  end.

Lemma storage_runs mode g l wd ht w :
  wp (CaptureSceneViewScreenshot mode g l wd ht) (storage_post mode wd ht w) w.
Proof.
  unfold CaptureSceneViewScreenshot.
  repeat wp_step_exact.
  all: unfold storage_post, screenshot_dir, screenshot_path; wsimpl.
  all: repeat match goal with |- _ /\ _ => split end.
  all: storage_leaf.
Qed.

(** ** The order of effects *)

Lemma trace_runs mode g l wd ht w v c :
  faults w = [] ->
  resolve_view (env w) = Some v ->
  camera (env w) v = Some c ->
  wp (CaptureSceneViewScreenshot mode g l wd ht)
     (fun _ w' => log w' = (log w ++ capture_trace mode g wd ht w v c)%list) w.
Proof.
  intros Hf Hv Hc.
  unfold CaptureSceneViewScreenshot, resolve_view in *.
  repeat wp_step_quiet_exact.
  all: same_options.
  all: unfold capture_trace, screenshot_dir, screenshot_path.
  all: destruct (existsb _ (directories w)); cbn [negb];
    rewrite <- ?app_assoc; reflexivity.
Qed.

(** X1.  A run of [CaptureSceneViewScreenshot] writes at most one file,
    whatever throws: the files are those of before, or those of before
    and the screenshot, at the path made of the data path, the mode and
    the time stamp, with the size asked for; and when the screenshot was
    written its directory exists. *)
Theorem capture_writes_at_most_the_screenshot :
  forall mode g l wd ht w,
    let w' := snd (CaptureSceneViewScreenshot mode g l wd ht w) in
    files w' = files w \/
    (files w' = (screenshot_path (env w) mode, (wd, ht)) :: files w /\
     existsb (String.eqb (screenshot_dir (env w))) (directories w') = true).
Proof.
  intros. destruct (storage_runs mode g l wd ht w) as (H & _). exact H.
Qed.

(** X2.  The screenshot directory is created only when it is absent: a
    directory that is there is left alone, the only directory a run may
    add is the screenshot directory, and after a capture that succeeded
    the directory is there. *)
Theorem directory_created_only_when_absent :
  forall mode g l wd ht w,
    let dir := screenshot_dir (env w) in
    let run := CaptureSceneViewScreenshot mode g l wd ht w in
    (existsb (String.eqb dir) (directories w) = true ->
     directories (snd run) = directories w) /\
    (directories (snd run) = directories w \/
     directories (snd run) = dir :: directories w) /\
    (forall r, fst run = Normal r -> is_success r = true ->
       existsb (String.eqb dir) (directories (snd run)) = true).
Proof.
  intros mode g l wd ht w dir run.
  destruct (storage_runs mode g l wd ht w) as (_ & Hd & Hs).
  fold run in Hd, Hs. fold dir in Hd, Hs.
  repeat split.
  - intro Hex. destruct Hd as [Hd|[Hno _]]; [exact Hd|congruence].
  - destruct Hd as [Hd|[_ Hd]]; auto.
  - exact Hs.
Qed.

Lemma directory_created_only_when_absent_witness :
  directories
    (snd (CaptureSceneViewScreenshot "basic" true false 1920 1080
            (with_directories ["/proj/Assets/../Temp/MCPScreenshots"] world0)))
  = ["/proj/Assets/../Temp/MCPScreenshots"].
Proof.
  apply (proj1 (directory_created_only_when_absent "basic" true false 1920 1080
                  (with_directories ["/proj/Assets/../Temp/MCPScreenshots"]
                     world0))).
  reflexivity.
Defined.

(** X3.  The order of effects of a capture on which nothing throws, in an
    editor with a Scene View and a camera: the directory is created when
    absent; the gizmo flag is set as the mode says (off for basic, on for
    labels and debug, [withGizmos] for custom, not at all otherwise); the
    view is repainted; a temporary of the size asked for is taken and the
    camera and the active texture are pointed at it; the camera renders,
    the pixels are read, encoded and written; then the camera's target
    and the active texture are put back, the temporary released, the
    gizmo flag put back and the view repainted. *)
Theorem successful_capture_trace :
  forall mode g l wd ht w v c,
    faults w = [] ->
    resolve_view (env w) = Some v ->
    camera (env w) v = Some c ->
    log (snd (CaptureSceneViewScreenshot mode g l wd ht w))
    = (log w ++ capture_trace mode g wd ht w v c)%list /\
    mode_flag "basic" g = Some false /\
    mode_flag "labels" g = Some true /\
    mode_flag "debug" g = Some true /\
    mode_flag "custom" g = Some g /\
    (mode <> "basic" -> mode <> "labels" -> mode <> "debug" ->
     mode <> "custom" -> mode_flag mode g = None).
Proof.
  intros mode g l wd ht w v c Hf Hv Hc.
  split; [exact (trace_runs mode g l wd ht w v c Hf Hv Hc)|].
  repeat split. apply mode_flag_unrecognized.
Qed.

Lemma successful_capture_trace_witness :
  log (snd (CaptureSceneViewScreenshot "custom" false true 2560 1440 world0))
  = (log world0 ++ capture_trace "custom" false 2560 1440 world0 0%nat 7%nat)%list /\
  mode_flag "basic" false = Some false /\
  mode_flag "labels" false = Some true /\
  mode_flag "debug" false = Some true /\
  mode_flag "custom" false = Some false /\
  ("custom" <> "basic" -> "custom" <> "labels" -> "custom" <> "debug" ->
   "custom" <> "custom" -> mode_flag "custom" false = None).
Proof.
  apply (successful_capture_trace "custom" false true 2560 1440 world0
           0%nat 7%nat); reflexivity.
Defined.

(** X4.  With a last active Scene View, no exception leaves
    [CaptureSceneViewScreenshot], whatever throws inside it: the method
    returns the no-camera failure when the view has no camera, the
    success response when it has one, or a failure reporting a failed
    capture. *)
Theorem capture_returns_with_active_view :
  forall mode g l wd ht w v,
    lastActiveSceneView (env w) = Some v ->
    exists r,
      fst (CaptureSceneViewScreenshot mode g l wd ht w) = Normal r /\
      ((camera (env w) v = None /\ r = no_camera_response) \/
       (exists msg, r = capture_failed_response msg) \/
       (exists c,
          camera (env w) v = Some c /\
          r = success_response (env w) mode l wd ht c (drawGizmos w v))).
Proof.
  intros mode g l wd ht w v Hlast.
  pose proof (capture_runs mode g l wd ht w) as P. unfold wp in P.
  destruct P as (_ & _ & _ & _ & _ & _ & P).
  unfold resolve_view in P. rewrite Hlast in P. destruct P as [_ P].
  destruct (camera (env w) v) as [c|].
  - destruct P as [[msg ->]|[-> _]]; eauto 10.
  - destruct P as [_ [->|[msg ->]]]; eauto 10.
Qed.

Lemma capture_returns_with_active_view_witness :
  exists r,
    fst (CaptureSceneViewScreenshot "basic" true false 1920 1080
           (sample_world (Some 0%nat) (Some 7%nat)
              [None; None; None; Some "render failed"]))
    = Normal r /\
    ((camera (sample_env (Some 0%nat) (Some 7%nat)) 0%nat = None /\
      r = no_camera_response) \/
     (exists msg, r = capture_failed_response msg) \/
     (exists c,
        camera (sample_env (Some 0%nat) (Some 7%nat)) 0%nat = Some c /\
        r = success_response (sample_env (Some 0%nat) (Some 7%nat)) "basic"
              false 1920 1080 c true)).
Proof.
  apply (capture_returns_with_active_view "basic" true false 1920 1080
           (sample_world (Some 0%nat) (Some 7%nat)
              [None; None; None; Some "render failed"]) 0%nat).
  reflexivity.
Defined.

(** X6.  The first result wins: a run of the closure always ends
    normally and leaves the completion source completed, and a second run
    leaves the source with the value the first run left, whatever the
    parameters of the two runs. *)
Theorem first_result_wins :
  forall parameters1 parameters2 w,
    let w1 := snd (ExecuteAsync parameters1 w) in
    let w2 := snd (ExecuteAsync parameters2 w1) in
    fst (ExecuteAsync parameters1 w) = Normal tt /\
    fst (ExecuteAsync parameters2 w1) = Normal tt /\
    tcs w1 <> None /\
    tcs w2 = tcs w1.
Proof.
  intros parameters1 parameters2 w w1 w2.
  destruct (closure_post_of_run parameters1 w)
    as (Ho1 & _ & _ & _ & _ & _ & r1 & _ & Htcs1 & _).
  destruct (closure_post_of_run parameters2 w1)
    as (Ho2 & _ & _ & _ & _ & _ & r2 & _ & Htcs2 & _).
  fold w1 in Htcs1. fold w2 in Htcs2.
  repeat split; auto.
  - rewrite Htcs1. destruct (tcs w); discriminate.
  - rewrite Htcs2. destruct (tcs w1) eqn:E; [reflexivity|].
    rewrite Htcs1 in E. destruct (tcs w); discriminate.
Qed.

(** X7.  What a success response says is what the run did: its
    [filePath] is the path of the file the run wrote, which has the size
    asked for; its [resolution] is that size as "WxH"; its [timestamp] is
    the one in the file name; its [withLabels] and [mode] are the
    arguments; and its message ends with the path. *)
Theorem success_response_names_the_file :
  forall mode g l wd ht w r,
    fst (CaptureSceneViewScreenshot mode g l wd ht w) = Normal r ->
    is_success r = true ->
    let path :=
      Path_Combine (screenshot_dir (env w))
        ("MCP_SceneView_" ++ mode ++ "_" ++ now (env w) ++ ".png") in
    files (snd (CaptureSceneViewScreenshot mode g l wd ht w))
    = (path, (wd, ht)) :: files w /\
    item r "filePath" = Some (JString path) /\
    item r "timestamp" = Some (JString (now (env w))) /\
    item r "resolution"
    = Some (JString (Int32_ToString wd ++ "x" ++ Int32_ToString ht)) /\
    item r "withLabels" = Some (JBool l) /\
    item r "mode" = Some (JString mode) /\
    item r "message"
    = Some (JString ("Screenshot captured successfully: " ++ path)).
Proof.
  intros mode g l wd ht w r Hr Hs path.
  pose proof (capture_runs mode g l wd ht w) as P. unfold wp in P.
  rewrite Hr in P. destruct P as (_ & _ & _ & _ & _ & _ & P).
  destruct (resolve_view (env w)) as [v|].
  - destruct P as [_ P]. destruct (camera (env w) v) as [c|].
    + destruct P as [[msg P]|[P Hfiles]]; injection P as ->.
      * discriminate Hs.
      * split; [exact Hfiles|]. repeat split.
    + destruct P as [_ [P|[msg P]]]; injection P as ->; discriminate Hs.
  - destruct P as [P _]. injection P as ->. discriminate Hs.
Qed.

Lemma success_response_names_the_file_witness :
  let path :=
    Path_Combine (screenshot_dir (env world0))
      ("MCP_SceneView_" ++ "debug" ++ "_" ++ now (env world0) ++ ".png") in
  let r := success_response (env world0) "debug" true 3840 2160 7%nat true in
  files (snd (CaptureSceneViewScreenshot "debug" false true 3840 2160 world0))
  = (path, (3840, 2160)%Z) :: files world0 /\
  item r "filePath" = Some (JString path) /\
  item r "timestamp" = Some (JString (now (env world0))) /\
  item r "resolution"
  = Some (JString (Int32_ToString 3840 ++ "x" ++ Int32_ToString 2160)) /\
  item r "withLabels" = Some (JBool true) /\
  item r "mode" = Some (JString "debug") /\
  item r "message"
  = Some (JString ("Screenshot captured successfully: " ++ path)).
Proof.
  apply (success_response_names_the_file "debug" false true 3840 2160 world0);
    reflexivity.
Defined.

(** ** The parameters of the closure *)

Lemma closure_depends_on_decoded parameters1 parameters2 w :
  string_parameter parameters1 "mode" "basic"
  = string_parameter parameters2 "mode" "basic" ->
  bool_parameter parameters1 "withGizmos" true
  = bool_parameter parameters2 "withGizmos" true ->
  bool_parameter parameters1 "withLabels" false
  = bool_parameter parameters2 "withLabels" false ->
  string_parameter parameters1 "resolution" "1080p"
  = string_parameter parameters2 "resolution" "1080p" ->
  ExecuteAsync parameters1 w = ExecuteAsync parameters2 w.
Proof.
  intros Hm Hg Hl Hr. unfold ExecuteAsync. now rewrite Hm, Hg, Hl, Hr.
Qed.

(** X9.  A parameter that is missing counts as its default: a call runs
    the same way as the call that spells out "basic" for a missing [mode],
    true for a missing [withGizmos], false for a missing [withLabels] and
    "1080p" for a missing [resolution]. *)
Theorem missing_parameters_take_defaults :
  forall parameters1 parameters2 w,
    property "mode" parameters2
    = Some match property "mode" parameters1 with
           | Some t => t
           | None => JString "basic"
           end ->
    property "withGizmos" parameters2
    = Some match property "withGizmos" parameters1 with
           | Some t => t
           | None => JBool true
           end ->
    property "withLabels" parameters2
    = Some match property "withLabels" parameters1 with
           | Some t => t
           | None => JBool false
           end ->
    property "resolution" parameters2
    = Some match property "resolution" parameters1 with
           | Some t => t
           | None => JString "1080p"
           end ->
    ExecuteAsync parameters1 w = ExecuteAsync parameters2 w.
Proof.
  intros p1 p2 w Hm Hg Hl Hr.
  apply closure_depends_on_decoded; unfold string_parameter, bool_parameter.
  - rewrite Hm. now destruct (property "mode" p1).
  - rewrite Hg. now destruct (property "withGizmos" p1).
  - rewrite Hl. now destruct (property "withLabels" p1).
  - rewrite Hr. now destruct (property "resolution" p1).
Qed.

Lemma missing_parameters_take_defaults_witness :
  ExecuteAsync [("withLabels", JBool true)] world0
  = ExecuteAsync
      [("mode", JString "basic"); ("withGizmos", JBool true);
       ("withLabels", JBool true); ("resolution", JString "1080p")] world0.
Proof.
  apply (missing_parameters_take_defaults [("withLabels", JBool true)]
           [("mode", JString "basic"); ("withGizmos", JBool true);
            ("withLabels", JBool true); ("resolution", JString "1080p")]
           world0); reflexivity.
Defined.

(** ** File names *)

Lemma append_cancel_l (a x y : string) : a ++ x = a ++ y -> x = y.
Proof.
  induction a as [|ch a IH]; cbn; intro H; [exact H|].
  injection H as H. auto.
Qed.

Lemma string_length_app (a b : string) :
  String.length (a ++ b) = (String.length a + String.length b)%nat.
Proof. induction a as [|ch a IH]; cbn; [reflexivity|now rewrite IH]. Qed.

Lemma append_cancel_r (x y b : string) : x ++ b = y ++ b -> x = y.
Proof.
  revert y. induction x as [|ch x IH]; intros [|ch' y] H; cbn in H.
  - reflexivity.
  - apply (f_equal String.length) in H. cbn in H.
    rewrite string_length_app in H. lia.
  - apply (f_equal String.length) in H. cbn in H.
    rewrite string_length_app in H. lia.
  - injection H as -> H. f_equal. auto.
Qed.

Lemma screenshot_path_time e1 e2 mode :
  dataPath e1 = dataPath e2 ->
  screenshot_path e1 mode = screenshot_path e2 mode ->
  now e1 = now e2.
Proof.
  unfold screenshot_path, Path_Combine. intros -> H.
  apply append_cancel_l in H. cbn in H. injection H as H.
  apply append_cancel_l in H. cbn in H. injection H as H.
  now apply append_cancel_r in H.
Qed.

Lemma success_file_path mode g l wd ht w r :
  fst (CaptureSceneViewScreenshot mode g l wd ht w) = Normal r ->
  is_success r = true ->
  item r "filePath" = Some (JString (screenshot_path (env w) mode)).
Proof.
  intros Hr Hs.
  pose proof (run_eq (CaptureSceneViewScreenshot mode g l wd ht) w) as Hrun.
  rewrite Hr in Hrun.
  destruct (capture_result_shape _ _ _ _ _ _ _ _ Hrun)
    as [->|[->|[[msg ->]|(v & c & _ & _ & ->)]]]; try discriminate Hs.
  reflexivity.
Qed.

(** X10.  Captures taken at different instants do not share a file: two
    successful captures with the same mode, in editors with the same data
    path whose clocks read differently, report different file paths. *)
Theorem different_instants_different_files :
  forall mode g1 l1 wd1 ht1 w1 r1 g2 l2 wd2 ht2 w2 r2,
    fst (CaptureSceneViewScreenshot mode g1 l1 wd1 ht1 w1) = Normal r1 ->
    is_success r1 = true ->
    fst (CaptureSceneViewScreenshot mode g2 l2 wd2 ht2 w2) = Normal r2 ->
    is_success r2 = true ->
    dataPath (env w1) = dataPath (env w2) ->
    now (env w1) <> now (env w2) ->
    item r1 "filePath" <> item r2 "filePath".
Proof.
  intros mode g1 l1 wd1 ht1 w1 r1 g2 l2 wd2 ht2 w2 r2 H1 S1 H2 S2 Hd Hn Heq.
  rewrite (success_file_path _ _ _ _ _ _ _ H1 S1) in Heq.
  rewrite (success_file_path _ _ _ _ _ _ _ H2 S2) in Heq.
  injection Heq as Heq. apply Hn.
  exact (screenshot_path_time _ _ mode Hd Heq).
Qed.

Lemma different_instants_different_files_witness :
  item (success_response (env world0) "basic" false 1920 1080 7%nat true)
    "filePath"
  <> item
       (success_response
          (mkEnv (Some 0%nat) None (fun _ => Some 7%nat) (fun _ => false)
             (fun _ => "(0.0, 1.0, -10.0)") (fun _ => "(0.0, 0.0, 0.0)")
             "/proj/Assets" "2025-01-02_03-04-05-679" "SampleScene" "Move"
             None)
          "basic" false 1920 1080 7%nat true)
       "filePath".
Proof.
  apply (different_instants_different_files "basic"
           true false 1920 1080 world0 _
           true false 1920 1080
           (mkWorld
              (mkEnv (Some 0%nat) None (fun _ => Some 7%nat) (fun _ => false)
                 (fun _ => "(0.0, 1.0, -10.0)") (fun _ => "(0.0, 0.0, 0.0)")
                 "/proj/Assets" "2025-01-02_03-04-05-679" "SampleScene" "Move"
                 None)
              (fun _ => true) (fun _ => None) None [] 0%nat [] [] None [] [])
           _);
    try reflexivity.
  vm_compute. discriminate.
Defined.

(** X11.  When nothing throws, the result of [CaptureSceneViewScreenshot]
    is decided by the editor alone: the no-scene-view failure without a
    Scene View, the no-camera failure with a Scene View that has no
    camera, the success response otherwise.  The capture-failed failure
    is therefore always the report of an exception. *)
Theorem quiet_capture_result :
  forall mode g l wd ht w,
    faults w = [] ->
    fst (CaptureSceneViewScreenshot mode g l wd ht w)
    = Normal
        match resolve_view (env w) with
        | None => no_scene_view_response
        | Some v =>
            match camera (env w) v with
            | None => no_camera_response
            | Some c =>
                success_response (env w) mode l wd ht c (drawGizmos w v)
            end
        end.
Proof.
  intros mode g l wd ht w Hf.
  destruct (resolve_view (env w)) as [v|] eqn:Hv.
  - destruct (camera (env w) v) as [c|] eqn:Hc.
    + exact (proj1 (capture_succeeds mode g l wd ht w v c Hf Hv Hc)).
    + exact (capture_without_camera mode g l wd ht w v Hf Hv Hc).
  - destruct (capture_runs mode g l wd ht w) as (_ & _ & _ & _ & _ & _ & P).
    rewrite Hv in P. exact (proj1 P).
Qed.

Lemma quiet_capture_result_witness :
  fst (CaptureSceneViewScreenshot "labels" true true 2560 1440 world0)
  = Normal
      match resolve_view (env world0) with
      | None => no_scene_view_response
      | Some v =>
          match camera (env world0) v with
          | None => no_camera_response
          | Some c =>
              success_response (env world0) "labels" true 2560 1440 c
                (drawGizmos world0 v)
          end
      end.
Proof.
  apply (quiet_capture_result "labels" true true 2560 1440 world0).
  reflexivity.
Defined.

(** * Further properties of the tools of the Node server *)

Lemma sendRequest_rejections mcpUnity request e :
  fst (sendRequest mcpUnity request) = Rejected e ->
  type e = TIMEOUT \/ type e = CONNECTION.
Proof.
  unfold sendRequest.
  destruct (replies mcpUnity) as [|[r| |] rest]; cbn; intro H;
    try discriminate H; injection H as <-; auto.
Qed.

Lemma js_or_truthy a b : truthy b = true -> truthy (js_or a b) = true.
Proof. unfold js_or. destruct (truthy a) eqn:E; auto. Qed.

Lemma js_or_left a b : truthy a = true -> js_or a b = a.
Proof. unfold js_or. now intros ->. Qed.

Ltac scene_outcome mcpUnity request :=
  let Hrej := fresh "Hrej" in
  let Hnt := fresh "Hnt" in
  let response := fresh "response" in
  let e0 := fresh "e0" in
  let mcpUnity' := fresh "mcpUnity'" in
  pose proof (sendRequest_rejections mcpUnity request) as Hrej;
  pose proof (sendRequest_not_validation mcpUnity request) as Hnt;
  destruct (sendRequest mcpUnity request) as [[response|e0|] mcpUnity'];
  cbn [fst snd] in *;
  [ destruct (nullish response) eqn:?;
    [|destruct (truthy (member response "success")) eqn:?; cbn [negb]]
  | | destruct Hnt ];
  (split; [intros ? ?|split; [intros ? ?|intros ?]]);
  cbn [fst snd] in *; try discriminate;
  match goal with
  | H : Resolved _ = Resolved _ |- _ =>
      injection H as <-; split; [reflexivity|];
      exists response; repeat split; auto;
      unfold content_text; cbn; apply js_or_truthy; reflexivity
  | H : Rejected _ = Rejected ?e |- _ =>
      injection H as <-;
      first
        [ destruct (Hrej e0 eq_refl) as [Hty|Hty]; rewrite Hty; auto
        | cbn [type message]; split; [reflexivity|];
          split; [apply js_or_truthy; reflexivity|];
          exists response; repeat split; auto; apply js_or_left ]
  | H : RejectedTypeError = RejectedTypeError |- _ =>
      split; [reflexivity|]; exists response; split; [reflexivity|assumption]
  end.

(** X12.  What the outcome of a scene tool says about the call.  A
    validation error means the call lacked what the tool requires and
    nothing was asked of the editor.  A tool-execution error means the
    editor answered, with something other than [null] or [undefined],
    without a true [success]; it carries the answer's message when there
    is one and a fixed text otherwise, never nothing.  Any other
    [McpUnityError] is the failure of the request itself, passed on
    unchanged.  A [TypeError] means the editor's answer was [null] or
    [undefined].  A result means the editor answered with a true
    [success]; it carries the answer's [scenePath] and a text that is
    never empty. *)
Theorem scene_tool_outcomes :
  forall t mcpUnity params,
    let request := mkRequest (name t) params in
    let outcome := handler t mcpUnity params in
    (forall e,
       fst outcome = Rejected e ->
       match type e with
       | VALIDATION => required t params = false /\ snd outcome = mcpUnity
       | TOOL_EXECUTION =>
           required t params = true /\
           truthy (message e) = true /\
           exists response,
             fst (sendRequest mcpUnity request) = Resolved response /\
             nullish response = false /\
             truthy (member response "success") = false /\
             (truthy (member response "message") = true ->
              message e = member response "message")
       | _ =>
           required t params = true /\
           fst (sendRequest mcpUnity request) = Rejected e
       end) /\
    (forall result,
       fst outcome = Resolved result ->
       required t params = true /\
       exists response,
         fst (sendRequest mcpUnity request) = Resolved response /\
         nullish response = false /\
         truthy (member response "success") = true /\
         member (member result "data") "scenePath"
         = member response "scenePath" /\
         truthy (content_text result) = true) /\
    (fst outcome = RejectedTypeError ->
     required t params = true /\
     exists response,
       fst (sendRequest mcpUnity request) = Resolved response /\
       nullish response = true).
Proof.
  intros t mcpUnity params request outcome. subst request outcome.
  destruct t; cbn [required handler name]; unfold provided;
    unfold createSceneTool.toolHandler, loadSceneTool.toolHandler,
      deleteSceneTool.toolHandler.
  - destruct (truthy (get params "sceneName")); cbn [negb].
    + scene_outcome mcpUnity (mkRequest createSceneTool.toolName params).
    + split; [intros e He|split; [intros result Hres|intro Hty]];
        try discriminate.
      injection He as <-. cbn. auto.
  - destruct (truthy (get params "scenePath")),
      (truthy (get params "sceneName")); cbn [negb andb orb].
    1-3: scene_outcome mcpUnity (mkRequest loadSceneTool.toolName params).
    split; [intros e He|split; [intros result Hres|intro Hty]];
      try discriminate.
    injection He as <-. cbn. auto.
  - destruct (truthy (get params "scenePath")),
      (truthy (get params "sceneName")); cbn [negb andb orb].
    1-3: scene_outcome mcpUnity (mkRequest deleteSceneTool.toolName params).
    split; [intros e He|split; [intros result Hres|intro Hty]];
      try discriminate.
    injection He as <-. cbn. auto.
Qed.

Lemma destructured_defined args key fallback :
  fallback <> JsUndefined ->
  captureScreenshotTool.destructured args key fallback <> JsUndefined.
Proof.
  unfold captureScreenshotTool.destructured.
  destruct (get args key); auto; discriminate.
Qed.

Lemma destructured_of_get args key fallback v :
  get args key = v ->
  v <> JsUndefined ->
  captureScreenshotTool.destructured args key fallback = v.
Proof.
  unfold captureScreenshotTool.destructured. intros <- H.
  destruct (get args key) eqn:E; congruence.
Qed.

(** X13.  The capture tool of the server always asks the editor, and
    always in the same shape: one request, named capture_screenshot, with
    exactly the four parameters mode, withGizmos, withLabels and
    resolution in that order, each the value of the call when it has one
    (anything but [undefined], [null] included) and the default otherwise;
    other properties of the call are not passed on.  Normalising is
    idempotent: the parameters of the request, used as a call, are
    answered like the call.  The handler never ends with a validation
    error; what it lets through has a true [success], and a
    tool-execution error never has an empty message. *)
Theorem capture_request_is_normalised :
  forall mcpUnity args,
    let outcome := captureScreenshotTool.toolHandler_request mcpUnity args in
    exists request,
      requests (snd outcome) = (requests mcpUnity ++ [request])%list /\
      method request = "capture_screenshot" /\
      map fst (params request)
      = ["mode"; "withGizmos"; "withLabels"; "resolution"] /\
      (forall key fallback,
         In (key, fallback)
           [("mode", JsString "basic"); ("withGizmos", JsBoolean true);
            ("withLabels", JsBoolean false); ("resolution", JsString "1080p")] ->
         get (params request) key
         = match get args key with
           | JsUndefined => fallback
           | v => v
           end) /\
      captureScreenshotTool.toolHandler_request mcpUnity (params request)
      = outcome /\
      is_validation_error (fst outcome) = false /\
      (forall response,
         fst outcome = Resolved response ->
         truthy (member response "success") = true) /\
      (forall e,
         fst outcome = Rejected e ->
         type e = TOOL_EXECUTION ->
         truthy (message e) = true).
Proof.
  intros mcpUnity args outcome. subst outcome.
  unfold captureScreenshotTool.toolHandler_request.
  set (mode := captureScreenshotTool.destructured args "mode" _).
  set (withGizmos := captureScreenshotTool.destructured args "withGizmos" _).
  set (withLabels := captureScreenshotTool.destructured args "withLabels" _).
  set (resolution := captureScreenshotTool.destructured args "resolution" _).
  set (request :=
         mkRequest "capture_screenshot"
           [("mode", mode); ("withGizmos", withGizmos);
            ("withLabels", withLabels); ("resolution", resolution)]).
  exists request.
  assert (Hsame :
    captureScreenshotTool.destructured (params request) "mode"
      (JsString "basic") = mode /\
    captureScreenshotTool.destructured (params request) "withGizmos"
      (JsBoolean true) = withGizmos /\
    captureScreenshotTool.destructured (params request) "withLabels"
      (JsBoolean false) = withLabels /\
    captureScreenshotTool.destructured (params request) "resolution"
      (JsString "1080p") = resolution).
  { repeat split; (apply destructured_of_get; [reflexivity|]);
      apply destructured_defined; discriminate. }
  destruct Hsame as (-> & -> & -> & ->). fold request.
  pose proof (sendRequest_requests mcpUnity request) as Hreq.
  pose proof (sendRequest_rejections mcpUnity request) as Hrej.
  pose proof (sendRequest_not_validation mcpUnity request) as Hnt.
  split; [|split; [reflexivity|split; [reflexivity|split]]].
  - destruct (sendRequest mcpUnity request) as [[response|e0|] mcpUnity'];
      [destruct (nullish response);
       [|destruct (negb (truthy (member response "success")))]| |];
      exact Hreq.
  - intros key fallback [H|[H|[H|[H|[]]]]]; injection H as <- <-; reflexivity.
  - split; [reflexivity|].
    destruct (sendRequest mcpUnity request) as [[response|e0|] mcpUnity'];
      cbn [fst snd] in *.
    + destruct (nullish response); cbn [fst].
      * repeat split; discriminate.
      * destruct (truthy (member response "success")) eqn:Hs; cbn [negb fst].
        -- repeat split; [intros r Hr; now injection Hr as <-|discriminate].
        -- repeat split; [discriminate|].
           intros e He _. injection He as <-. apply js_or_truthy. reflexivity.
    + split; [|split; [discriminate|]].
      * destruct (Hrej e0 eq_refl) as [Hty|Hty]; destruct e0 as [ty msg];
          cbn in *; now subst.
      * intros e He Hty. injection He as <-.
        destruct (Hrej e0 eq_refl); congruence.
    + destruct Hnt.
Qed.

Lemma handler_requests t mcpUnity args :
  requests (snd (handler t mcpUnity args))
  = (requests mcpUnity
     ++ if required t args then [mkRequest (name t) args] else [])%list.
Proof.
  destruct t; cbn [required handler name]; unfold provided;
    unfold createSceneTool.toolHandler, loadSceneTool.toolHandler,
      deleteSceneTool.toolHandler.
  - destruct (truthy (get args "sceneName")); cbn [negb];
      [|cbn; now rewrite app_nil_r].
    pose proof (sendRequest_requests mcpUnity
                  (mkRequest createSceneTool.toolName args)) as H.
    destruct (sendRequest _ _) as [[response|e|] m'];
      [destruct (nullish response);
       [|destruct (negb (truthy (member response "success")))]| |]; exact H.
  - destruct (truthy (get args "scenePath")),
      (truthy (get args "sceneName")); cbn [negb andb orb];
      try (cbn; now rewrite app_nil_r).
    all: pose proof (sendRequest_requests mcpUnity
                       (mkRequest loadSceneTool.toolName args)) as H.
    all: destruct (sendRequest _ _) as [[response|e|] m'];
      [destruct (nullish response);
       [|destruct (negb (truthy (member response "success")))]| |]; exact H.
  - destruct (truthy (get args "scenePath")),
      (truthy (get args "sceneName")); cbn [negb andb orb];
      try (cbn; now rewrite app_nil_r).
    all: pose proof (sendRequest_requests mcpUnity
                       (mkRequest deleteSceneTool.toolName args)) as H.
    all: destruct (sendRequest _ _) as [[response|e|] m'];
      [destruct (nullish response);
       [|destruct (negb (truthy (member response "success")))]| |]; exact H.
Qed.

(** X14.  Over a series of calls to the scene tools, the requests made
    of the editor are the calls that provide what their tool requires, in
    the order of the calls, each under its tool's name with its parameters
    as they came; the calls turned down leave no trace, and what the
    editor answers changes nothing about what is asked. *)
Theorem requests_are_the_valid_calls :
  forall calls mcpUnity,
    requests (serve calls mcpUnity)
    = (requests mcpUnity
       ++ map (fun call => mkRequest (name (fst call)) (snd call))
            (filter (fun call => required (fst call) (snd call)) calls))%list.
Proof.
  induction calls as [|[t args] calls IH]; intro mcpUnity; cbn [serve].
  - cbn. now rewrite app_nil_r.
  - rewrite IH, handler_requests. cbn [filter fst snd].
    destruct (required t args); cbn [map]; rewrite <- app_assoc; reflexivity.
Qed.
